(** * SearchableSelect: filtering, keyboard navigation and selection

    A shallow embedding of
    [webview-ui/src/components/ui/searchable-select.tsx].

    The React component is modelled as a record [Widget] holding its props,
    its three [useState] cells, its refs, the browser's timer queue (only this
    component schedules timers) and a log of the [onValueChange] calls.  Every
    handler of the component is a function on [Widget]; [step] dispatches the
    events that the toolkit, the parent and the clock can deliver.

    Numbers are integers ([Z]); strings are [string]; [undefined] is [None].
    The display-only props ([placeholder], [searchPlaceholder],
    [emptyMessage], [className], [disabled], [data-testid]) and the JSX
    styling play no part in the state transitions and are left out.  Timer
    ids start at 1, so an id held in [searchResetTimeoutRef] is truthy. *)

From Stdlib Require Import ZArith List String Ascii Bool Arith Lia.
Import ListNotations.

Local Open Scope string_scope.
Local Open Scope Z_scope.

(** ** JavaScript primitives used by the component *)

Module JS.

(** Truthiness of a string: only the empty string is falsy. *)
Definition truthy (s : string) : bool := negb (String.eqb s "").

(** Truthiness of [string | undefined]. *)
Definition truthy_opt (v : option string) : bool :=
  match v with
  | Some s => truthy s
  | None => false
  end.

(** [s.startsWith(pat)], the one-position test behind [includes]. *)
Fixpoint startsWith (s pat : string) {struct pat} : bool :=
  match pat with
  | EmptyString => true
  | String c pat' =>
      match s with
      | EmptyString => false
      | String d s' => Ascii.eqb c d && startsWith s' pat'
      end
  end.

(** [s.includes(pat)]: [pat] occurs at some position of [s]. *)
Fixpoint includes (s pat : string) : bool :=
  startsWith s pat ||
  match s with
  | EmptyString => false
  | String _ s' => includes s' pat
  end.

Fixpoint findIndex_from {A : Type} (p : A -> bool) (l : list A) (i : Z) : Z :=
  match l with
  | [] => -1
  | x :: r => if p x then i else findIndex_from p r (i + 1)
  end.

(** [l.findIndex(p)]: index of the first element satisfying [p], else -1. *)
Definition findIndex {A : Type} (p : A -> bool) (l : list A) : Z :=
  findIndex_from p l 0.

(** [l[i]] for an integer [i]: [undefined] (here [None]) out of range. *)
Definition at_index {A : Type} (l : list A) (i : Z) : option A :=
  if i <? 0 then None else nth_error l (Z.to_nat i).

(** [l.length] as a JS number. *)
Definition length {A : Type} (l : list A) : Z := Z.of_nat (List.length l).

(** [a % b] takes the sign of the dividend. *)
Definition rem (a b : Z) : Z := Z.rem a b.

(** [===] on [string | undefined]. *)
Definition opt_string_eqb (a b : option string) : bool :=
  match a, b with
  | Some x, Some y => String.eqb x y
  | None, None => true
  | _, _ => false
  end.

End JS.

(** [toLowerCase] restricted to the ASCII letters; used to run the model on
    concrete inputs.  The development itself is parametric in the
    lower-casing function. *)
Definition ascii_lower_char (c : ascii) : ascii :=
  let n := nat_of_ascii c in
  if (65 <=? n)%nat && (n <=? 90)%nat then ascii_of_nat (n + 32) else c.

Fixpoint ascii_toLowerCase (s : string) : string :=
  match s with
  | EmptyString => EmptyString
  | String c s' => String (ascii_lower_char c) (ascii_toLowerCase s')
  end.

(** ** Data model *)

(** [interface SearchableSelectOption]; [disabled?] is optional and [icon] is
    an opaque display handle. *)
Record SearchableSelectOption : Type := mkOption {
  value : string;
  label : string;
  disabled : option bool;
  icon : option nat
}.

(** Truthiness of [option.disabled]: [undefined] and [false] are falsy. *)
Definition is_disabled (o : SearchableSelectOption) : bool :=
  match disabled o with
  | Some b => b
  | None => false
  end.

(** The two callbacks the component hands to [setTimeout]. *)
Inductive TimerCallback : Type :=
| ValueResetCallback   (* [if (isMountedRef.current) setSearchValue("")] *)
| CloseResetCallback.  (* [setSearchValue("")] *)

Record Timer : Type := mkTimer {
  timer_id : nat;
  timer_due : nat;
  timer_callback : TimerCallback
}.

(** One mounted instance of the component together with its environment. *)
Record Widget : Type := mkWidget {
  (* props *)
  props_value : option string;
  props_options : list SearchableSelectOption;
  (* useState *)
  open : bool;
  searchValue : string;
  highlightedIndex : Z;
  (* useRef *)
  searchResetTimeoutRef : option nat;
  isMountedRef : bool;
  (* [timeoutId] captured by the cleanup of the [value] effect *)
  valueEffectTimeoutId : nat;
  (* timer queue and clock, in milliseconds *)
  now : nat;
  timers : list Timer;
  nextTimerId : nat;
  (* observable effects *)
  onValueChange_calls : list string;
  focus_calls : nat
}.

(** An order-preserving selection of the elements of a list. *)
Inductive Subsequence {A : Type} : list A -> list A -> Prop :=
| Subsequence_nil : Subsequence [] []
| Subsequence_skip : forall x l1 l2, Subsequence l1 l2 -> Subsequence l1 (x :: l2)
| Subsequence_keep : forall x l1 l2, Subsequence l1 l2 -> Subsequence (x :: l1) (x :: l2).

(** ** State setters *)

Definition setOpen (b : bool) (w : Widget) : Widget :=
  mkWidget (props_value w) (props_options w) b (searchValue w)
    (highlightedIndex w) (searchResetTimeoutRef w) (isMountedRef w)
    (valueEffectTimeoutId w) (now w) (timers w) (nextTimerId w)
    (onValueChange_calls w) (focus_calls w).

Definition setSearchValue (s : string) (w : Widget) : Widget :=
  mkWidget (props_value w) (props_options w) (open w) s
    (highlightedIndex w) (searchResetTimeoutRef w) (isMountedRef w)
    (valueEffectTimeoutId w) (now w) (timers w) (nextTimerId w)
    (onValueChange_calls w) (focus_calls w).

Definition setHighlightedIndex (i : Z) (w : Widget) : Widget :=
  mkWidget (props_value w) (props_options w) (open w) (searchValue w)
    i (searchResetTimeoutRef w) (isMountedRef w)
    (valueEffectTimeoutId w) (now w) (timers w) (nextTimerId w)
    (onValueChange_calls w) (focus_calls w).

Definition set_searchResetTimeoutRef (r : option nat) (w : Widget) : Widget :=
  mkWidget (props_value w) (props_options w) (open w) (searchValue w)
    (highlightedIndex w) r (isMountedRef w)
    (valueEffectTimeoutId w) (now w) (timers w) (nextTimerId w)
    (onValueChange_calls w) (focus_calls w).

Definition set_isMountedRef (b : bool) (w : Widget) : Widget :=
  mkWidget (props_value w) (props_options w) (open w) (searchValue w)
    (highlightedIndex w) (searchResetTimeoutRef w) b
    (valueEffectTimeoutId w) (now w) (timers w) (nextTimerId w)
    (onValueChange_calls w) (focus_calls w).

Definition set_valueEffectTimeoutId (id : nat) (w : Widget) : Widget :=
  mkWidget (props_value w) (props_options w) (open w) (searchValue w)
    (highlightedIndex w) (searchResetTimeoutRef w) (isMountedRef w)
    id (now w) (timers w) (nextTimerId w)
    (onValueChange_calls w) (focus_calls w).

Definition set_props_value (v : option string) (w : Widget) : Widget :=
  mkWidget v (props_options w) (open w) (searchValue w)
    (highlightedIndex w) (searchResetTimeoutRef w) (isMountedRef w)
    (valueEffectTimeoutId w) (now w) (timers w) (nextTimerId w)
    (onValueChange_calls w) (focus_calls w).

Definition set_props_options (o : list SearchableSelectOption) (w : Widget) : Widget :=
  mkWidget (props_value w) o (open w) (searchValue w)
    (highlightedIndex w) (searchResetTimeoutRef w) (isMountedRef w)
    (valueEffectTimeoutId w) (now w) (timers w) (nextTimerId w)
    (onValueChange_calls w) (focus_calls w).

Definition set_clock (t : nat) (pending : list Timer) (w : Widget) : Widget :=
  mkWidget (props_value w) (props_options w) (open w) (searchValue w)
    (highlightedIndex w) (searchResetTimeoutRef w) (isMountedRef w)
    (valueEffectTimeoutId w) t pending (nextTimerId w)
    (onValueChange_calls w) (focus_calls w).

(** [onValueChange(v)]: the parent's callback, recorded in call order. *)
Definition onValueChange (v : string) (w : Widget) : Widget :=
  mkWidget (props_value w) (props_options w) (open w) (searchValue w)
    (highlightedIndex w) (searchResetTimeoutRef w) (isMountedRef w)
    (valueEffectTimeoutId w) (now w) (timers w) (nextTimerId w)
    (onValueChange_calls w ++ [v]) (focus_calls w).

(** [searchInputRef.current?.focus()]. *)
Definition focusSearchInput (w : Widget) : Widget :=
  mkWidget (props_value w) (props_options w) (open w) (searchValue w)
    (highlightedIndex w) (searchResetTimeoutRef w) (isMountedRef w)
    (valueEffectTimeoutId w) (now w) (timers w) (nextTimerId w)
    (onValueChange_calls w) (S (focus_calls w)).

(** ** Timers *)

(** [setTimeout(cb, delay)]: returns the fresh id and the updated queue. *)
Definition setTimeout (cb : TimerCallback) (delay : nat) (w : Widget) : nat * Widget :=
  let id := nextTimerId w in
  (id,
   mkWidget (props_value w) (props_options w) (open w) (searchValue w)
     (highlightedIndex w) (searchResetTimeoutRef w) (isMountedRef w)
     (valueEffectTimeoutId w) (now w)
     (timers w ++ [mkTimer id (now w + delay)%nat cb]) (S id)
     (onValueChange_calls w) (focus_calls w)).

(** [clearTimeout(id)]: a no-op when [id] is no longer pending. *)
Definition clearTimeout (id : nat) (w : Widget) : Widget :=
  set_clock (now w)
    (filter (fun t => negb (Nat.eqb (timer_id t) id)) (timers w)) w.

Definition runTimerCallback (cb : TimerCallback) (w : Widget) : Widget :=
  match cb with
  | ValueResetCallback => if isMountedRef w then setSearchValue "" w else w
  | CloseResetCallback => setSearchValue "" w
  end.

(** [dt] milliseconds elapse: every timer that has come due fires, in queue
    order (the queue is ordered by due time since every delay is 100). *)
Definition advance (dt : nat) (w : Widget) : Widget :=
  let t := (now w + dt)%nat in
  let due := filter (fun tm => (timer_due tm <=? t)%nat) (timers w) in
  let pending := filter (fun tm => negb (timer_due tm <=? t)%nat) (timers w) in
  fold_left (fun acc tm => runTimerCallback (timer_callback tm) acc) due
    (set_clock t pending w).

(** ** The component *)

Section SearchableSelect.

(** [String.prototype.toLowerCase]. *)
Variable toLowerCase : string -> string.

(** [options.find((option) => option.value === value)]. *)
Definition selectedOption (w : Widget) : option SearchableSelectOption :=
  find (fun option => JS.opt_string_eqb (Some (value option)) (props_value w))
    (props_options w).

(** Label shown on the trigger button. *)
Definition triggerLabel (placeholder : string) (w : Widget) : string :=
  match selectedOption w with
  | Some o => label o
  | None => placeholder
  end.

(** The body of the [filteredOptions] memo, as a function of its two
    dependencies. *)
Definition filterOptions (options : list SearchableSelectOption)
  (search : string) : list SearchableSelectOption :=
  if negb (JS.truthy search) then options
  else filter
         (fun option =>
            JS.includes (toLowerCase (label option)) (toLowerCase search))
         options.

Definition filteredOptions (w : Widget) : list SearchableSelectOption :=
  filterOptions (props_options w) (searchValue w).

(** The body of the [enabledFilteredOptions] memo. *)
Definition enabledOf (filtered : list SearchableSelectOption)
  : list SearchableSelectOption :=
  filter (fun option => negb (is_disabled option)) filtered.

Definition enabledFilteredOptions (w : Widget) : list SearchableSelectOption :=
  enabledOf (filteredOptions w).

Definition getDefaultHighlightedIndex (w : Widget) : Z :=
  if JS.length (enabledFilteredOptions w) =? 0 then -1
  else
    match props_value w with
    | Some v =>
        if JS.truthy v then
          let selectedEnabledOptionIndex :=
            JS.findIndex (fun option => String.eqb (value option) v)
              (enabledFilteredOptions w) in
          if negb (selectedEnabledOptionIndex =? -1)
          then selectedEnabledOptionIndex
          else 0
        else 0
    | None => 0
    end.

(** First render: state initialisers, then the [value] effect schedules its
    reset. *)
Definition mount (v : option string) (options : list SearchableSelectOption)
  : Widget :=
  let w0 := mkWidget v options false "" (-1) None true 0%nat 0%nat [] 1%nat [] 0%nat in
  let (timeoutId, w1) := setTimeout ValueResetCallback 100 w0 in
  set_valueEffectTimeoutId timeoutId w1.

(** Cleanups run when the instance is torn down. *)
Definition unmount (w : Widget) : Widget :=
  let w1 := set_isMountedRef false w in
  let w2 :=
    match searchResetTimeoutRef w1 with
    | Some id => clearTimeout id w1
    | None => w1
    end in
  clearTimeout (valueEffectTimeoutId w2) w2.

(** The parent re-renders with a new [value]: when it differs, the [value]
    effect's cleanup runs and the effect is scheduled again. *)
Definition receiveValue (v : option string) (w : Widget) : Widget :=
  if JS.opt_string_eqb v (props_value w) then w
  else
    let w1 := clearTimeout (valueEffectTimeoutId w) (set_props_value v w) in
    let (timeoutId, w2) := setTimeout ValueResetCallback 100 w1 in
    set_valueEffectTimeoutId timeoutId w2.

(** The parent re-renders with a new [options] array. *)
Definition receiveOptions (options : list SearchableSelectOption) (w : Widget)
  : Widget :=
  set_props_options options w.

(** The callback handed to [useEscapeKey]. *)
Definition escapeCallback (w : Widget) : Widget := setOpen false w.

Definition handleOpenChange (o : bool) (w : Widget) : Widget :=
  let w1 := setOpen o w in
  let w2 :=
    setHighlightedIndex (if o then getDefaultHighlightedIndex w else -1) w1 in
  if negb o then
    let w3 :=
      match searchResetTimeoutRef w2 with
      | Some id => clearTimeout id w2
      | None => w2
      end in
    let (id, w4) := setTimeout CloseResetCallback 100 w3 in
    set_searchResetTimeoutRef (Some id) w4
  else w2.

Definition handleSelect (selectedValue : string) (w : Widget) : Widget :=
  onValueChange selectedValue (setOpen false w).

Definition handleClearSearch (w : Widget) : Widget :=
  focusSearchInput (setSearchValue "" w).

Definition handleSearchValueChange (nextSearchValue : string) (w : Widget)
  : Widget :=
  setHighlightedIndex 0 (setSearchValue nextSearchValue w).

(** [handleInputKeyDown]; the boolean tells whether [event.preventDefault()]
    was called. *)
Definition handleInputKeyDown (key : string) (w : Widget) : bool * Widget :=
  let n := JS.length (enabledFilteredOptions w) in
  if n =? 0 then (false, w)
  else if String.eqb key "ArrowDown" || String.eqb key "ArrowUp" then
    let direction := if String.eqb key "ArrowDown" then 1 else -1 in
    let safeIndex :=
      if highlightedIndex w =? -1 then 0 else highlightedIndex w in
    let nextIndex := JS.rem (safeIndex + direction + n) n in
    (true, setHighlightedIndex nextIndex w)
  else if String.eqb key "Enter" && (highlightedIndex w >=? 0) then
    match JS.at_index (enabledFilteredOptions w) (highlightedIndex w) with
    | Some highlightedOption => (true, handleSelect (value highlightedOption) w)
    | None => (true, w)
    end
  else (false, w).

(** [enabledOptionIndex] of a rendered row. *)
Definition enabledOptionIndex (option : SearchableSelectOption) (w : Widget) : Z :=
  JS.findIndex (fun enabledOption => String.eqb (value enabledOption) (value option))
    (enabledFilteredOptions w).

Definition isHighlighted (option : SearchableSelectOption) (w : Widget) : bool :=
  (enabledOptionIndex option w =? highlightedIndex w) && negb (is_disabled option).

(** The [onSelect] prop of a row. *)
Definition item_onSelect (option : SearchableSelectOption) (w : Widget) : Widget :=
  handleSelect (value option) w.

(** The [onMouseEnter] prop of a row. *)
Definition item_onMouseEnter (option : SearchableSelectOption) (w : Widget)
  : Widget :=
  if negb (is_disabled option)
  then setHighlightedIndex (enabledOptionIndex option w) w
  else w.

(** The [disabled] prop of a row. *)
Definition item_disabled (option : SearchableSelectOption) : bool :=
  is_disabled option.

(** Modelled from the spec: the toolkit's [CommandItem] is not part of the
    sources.  Per the spec it suppresses the click of an item whose
    [disabled] prop is set and otherwise calls the item's [onSelect]. *)
Definition CommandItem_click (option : SearchableSelectOption) (w : Widget)
  : Widget :=
  if item_disabled option then w else item_onSelect option w.


(** Whether the check mark of a row is shown: [value === option.value]. *)
Definition isChecked (option : SearchableSelectOption) (w : Widget) : bool :=
  JS.opt_string_eqb (props_value w) (Some (value option)).

(** ** Events *)

Inductive Event : Type :=
| PopoverOpenChange (o : bool)          (* [Popover.onOpenChange] *)
| InputValueChange (text : string)      (* [CommandInput.onValueChange] *)
| InputKeyDown (key : string)           (* [CommandInput.onKeyDown] *)
| ClearSearchClick                      (* click on the clear icon *)
| ItemSelect (row : nat)                (* [onSelect] of the row-th item *)
| ItemMouseEnter (row : nat)            (* [onMouseEnter] of the row-th item *)
| EscapeKey                             (* the [useEscapeKey] callback *)
| PropsOptions (options : list SearchableSelectOption)
| PropsValue (v : option string)
| TimePasses (dt : nat)
| Unmount.

Definition step (w : Widget) (e : Event) : Widget :=
  match e with
  | PopoverOpenChange o => handleOpenChange o w
  | InputValueChange text => handleSearchValueChange text w
  | InputKeyDown key => snd (handleInputKeyDown key w)
  | ClearSearchClick => handleClearSearch w
  | ItemSelect row =>
      match nth_error (filteredOptions w) row with
      | Some option => item_onSelect option w
      | None => w
      end
  | ItemMouseEnter row =>
      match nth_error (filteredOptions w) row with
      | Some option => item_onMouseEnter option w
      | None => w
      end
  | EscapeKey => escapeCallback w
  | PropsOptions options => receiveOptions options w
  | PropsValue v => receiveValue v w
  | TimePasses dt => advance dt w
  | Unmount => unmount w
  end.

Definition run (w : Widget) (es : list Event) : Widget := fold_left step es w.

(** States the component can be in after any sequence of events. *)
Definition reachable (w : Widget) : Prop :=
  exists v options es, w = run (mount v options) es.

(** ** The highlight rule in the words of the specification *)

(** Three tiers: -1 on an empty list, else the index of the entry matching
    the selected value, else 0. *)
Definition three_tier_rule (navigable : list SearchableSelectOption)
  (selected : option string) : Z :=
  match navigable with
  | [] => -1
  | _ :: _ =>
      match selected with
      | Some v =>
          if existsb (fun o => String.eqb (value o) v) navigable
          then JS.findIndex (fun o => String.eqb (value o) v) navigable
          else 0
      | None => 0
      end
  end.

(** The selected value as the component reads it: an empty string counts as
    no selection. *)
Definition truthy_selection (v : option string) : option string :=
  if JS.truthy_opt v then v else None.

(** [label] contains [search], ignoring case. *)
Definition contains_ci (label search : string) : bool :=
  JS.includes (toLowerCase label) (toLowerCase search).

End SearchableSelect.


(** ** Bookkeeping of the pending timers *)

Definition is_close_reset (t : Timer) : bool :=
  match timer_callback t with
  | CloseResetCallback => true
  | ValueResetCallback => false
  end.

Definition is_value_reset (t : Timer) : bool :=
  match timer_callback t with
  | ValueResetCallback => true
  | CloseResetCallback => false
  end.

(** Every pending timer is the one its owner still holds the id of: a close
    reset is in [searchResetTimeoutRef], a value reset is the one the
    [value] effect's cleanup will clear. *)
Definition timers_tracked (w : Widget) : Prop :=
  forall t, In t (timers w) ->
    match timer_callback t with
    | CloseResetCallback => searchResetTimeoutRef w = Some (timer_id t)
    | ValueResetCallback => valueEffectTimeoutId w = timer_id t
    end.



(** Every pending timer is due after now and within the next 100ms. *)
Definition timers_due_soon (w : Widget) : Prop :=
  forall t, In t (timers w) ->
    (now w < timer_due t <= now w + 100)%nat.

(** ** Fixtures of the component's test file *)

Definition optA : SearchableSelectOption := mkOption "a" "Alpha" None None.
Definition optB : SearchableSelectOption := mkOption "b" "Beta" None None.
Definition optC : SearchableSelectOption := mkOption "c" "Gamma" None None.
Definition optB_disabled : SearchableSelectOption :=
  mkOption "b" "Beta" (Some true) None.

(** [options] of the first test. *)
Definition test_options : list SearchableSelectOption := [optA; optB; optC].

(** [options] of the second test. *)
Definition test_options_disabled : list SearchableSelectOption :=
  [optA; optB_disabled; optC].

(** An option whose value is the empty string. *)
Definition optNone : SearchableSelectOption := mkOption "" "None" None None.

(** ** Facts about the JavaScript primitives *)

Lemma startsWith_spec (s pat : string) :
  JS.startsWith s pat = true <-> exists post, s = (pat ++ post)%string.
Proof.
  revert s. induction pat as [|c pat IH]; intros s; simpl.
  - split; [intros _; now exists s | reflexivity].
  - destruct s as [|d s].
    + split; [discriminate | intros [post H]; discriminate].
    + rewrite andb_true_iff, Ascii.eqb_eq, IH. split.
      * intros [-> [post ->]]. now exists post.
      * intros [post H]. injection H as -> ->. split; [reflexivity | now exists post].
Qed.

Lemma includes_spec (s pat : string) :
  JS.includes s pat = true <->
  exists pre post, s = (pre ++ pat ++ post)%string.
Proof.
  induction s as [|d s IH]; simpl.
  - rewrite orb_false_r, startsWith_spec. split.
    + intros [post H]. now exists EmptyString, post.
    + intros [pre [post H]]. destruct pre; [now exists post | discriminate].
  - rewrite orb_true_iff, startsWith_spec, IH. split.
    + intros [[post H] | [pre [post H]]].
      * now exists EmptyString, post.
      * exists (String d pre), post. simpl. now rewrite H.
    + intros [pre [post H]]. destruct pre as [|e pre].
      * left. now exists post.
      * right. simpl in H. injection H as _ H. now exists pre, post.
Qed.

Lemma includes_empty (s : string) : JS.includes s "" = true.
Proof. destruct s; reflexivity. Qed.

Lemma truthy_false_iff (s : string) : JS.truthy s = false <-> s = "".
Proof.
  unfold JS.truthy. rewrite negb_false_iff. apply String.eqb_eq.
Qed.

Lemma findIndex_from_found {A : Type} (p : A -> bool) (l : list A) (i : Z) :
  existsb p l = true ->
  i <= JS.findIndex_from p l i < i + JS.length l /\
  exists x, nth_error l (Z.to_nat (JS.findIndex_from p l i - i)) = Some x /\
            p x = true.
Proof.
  unfold JS.length. revert i. induction l as [|x l IH]; intros i H; simpl in *.
  - discriminate.
  - destruct (p x) eqn:Hp.
    + split; [lia |]. exists x. now rewrite Z.sub_diag.
    + simpl in H. destruct (IH (i + 1) H) as [Hr [y [Hy Hpy]]].
      split; [lia |]. exists y. split; [| exact Hpy].
      replace (Z.to_nat (JS.findIndex_from p l (i + 1) - i))
        with (S (Z.to_nat (JS.findIndex_from p l (i + 1) - (i + 1)))) by lia.
      exact Hy.
Qed.

Lemma findIndex_from_missing {A : Type} (p : A -> bool) (l : list A) (i : Z) :
  existsb p l = false -> JS.findIndex_from p l i = -1.
Proof.
  revert i. induction l as [|x l IH]; intros i H; simpl in *.
  - reflexivity.
  - apply orb_false_iff in H as [-> H]. now apply IH.
Qed.

Lemma findIndex_found {A : Type} (p : A -> bool) (l : list A) :
  existsb p l = true ->
  0 <= JS.findIndex p l < JS.length l /\
  exists x, JS.at_index l (JS.findIndex p l) = Some x /\ p x = true.
Proof.
  intros H. unfold JS.findIndex, JS.at_index.
  destruct (findIndex_from_found p l 0 H) as [Hr [x [Hx Hp]]].
  split; [lia |]. exists x. rewrite Z.sub_0_r in Hx.
  destruct (Z.ltb_spec (JS.findIndex_from p l 0) 0); [lia | now split].
Qed.

Lemma findIndex_missing {A : Type} (p : A -> bool) (l : list A) :
  existsb p l = false -> JS.findIndex p l = -1.
Proof. apply findIndex_from_missing. Qed.

Lemma findIndex_lower {A : Type} (p : A -> bool) (l : list A) :
  -1 <= JS.findIndex p l.
Proof.
  destruct (existsb p l) eqn:H.
  - apply findIndex_found in H. lia.
  - rewrite (findIndex_missing _ _ H). lia.
Qed.

Lemma at_index_in_range {A : Type} (l : list A) (i : Z) :
  0 <= i < JS.length l -> exists x, JS.at_index l i = Some x /\ In x l.
Proof.
  unfold JS.at_index, JS.length. intros H.
  destruct (Z.ltb_spec i 0); [lia |].
  destruct (nth_error l (Z.to_nat i)) as [x|] eqn:Hx.
  - exists x. split; [reflexivity | eapply nth_error_In; eassumption].
  - apply nth_error_None in Hx. lia.
Qed.

Lemma at_index_out_of_range {A : Type} (l : list A) (i : Z) :
  i < 0 \/ JS.length l <= i -> JS.at_index l i = None.
Proof.
  unfold JS.at_index, JS.length. intros H.
  destruct (Z.ltb_spec i 0); [reflexivity |].
  apply nth_error_None. lia.
Qed.

(** ** Facts about subsequences *)

Lemma Subsequence_refl {A : Type} (l : list A) : Subsequence l l.
Proof. induction l; constructor; assumption. Qed.

Lemma filter_Subsequence {A : Type} (p : A -> bool) (l : list A) :
  Subsequence (filter p l) l.
Proof.
  induction l as [|x l IH]; simpl.
  - constructor.
  - destruct (p x); constructor; assumption.
Qed.

Lemma Subsequence_In {A : Type} (l1 l2 : list A) (x : A) :
  Subsequence l1 l2 -> In x l1 -> In x l2.
Proof.
  induction 1; simpl; intuition.
Qed.

(** Relative order is kept: whatever comes later in the subsequence comes
    later in the list it was taken from. *)
Lemma Subsequence_order {A : Type} (l1 l2 a b : list A) (x y : A) :
  Subsequence l1 l2 -> l1 = (a ++ x :: b ++ [y])%list ->
  exists a' b' c', l2 = (a' ++ x :: b' ++ y :: c')%list.
Proof.
  intros H. revert a b x y.
  induction H as [|z k1 k2 H IH|z k1 k2 H IH]; intros a b x y E.
  - destruct a; discriminate.
  - destruct (IH _ _ _ _ E) as [a' [b' [c' ->]]].
    now exists (z :: a'), b', c'.
  - destruct a as [|a0 a].
    + simpl in E. injection E as -> ->.
      assert (Hy : In y k2).
      { eapply Subsequence_In; [exact H |]. apply in_or_app. right. now left. }
      apply in_split in Hy as [b' [c' ->]]. now exists [], b', c'.
    + simpl in E. injection E as -> ->.
      destruct (IH _ _ _ _ eq_refl) as [a' [b' [c' ->]]].
      now exists (a0 :: a'), b', c'.
Qed.

(** ** Properties of the component *)

Section Properties.

Variable toLowerCase : string -> string.

(** Lower-casing the empty string gives the empty string. *)
Hypothesis toLowerCase_empty : toLowerCase "" = "".

Abbreviation filterOptions := (filterOptions toLowerCase).
Abbreviation filteredOptions := (filteredOptions toLowerCase).
Abbreviation enabledFilteredOptions := (enabledFilteredOptions toLowerCase).
Abbreviation getDefaultHighlightedIndex := (getDefaultHighlightedIndex toLowerCase).
Abbreviation handleOpenChange := (handleOpenChange toLowerCase).
Abbreviation handleInputKeyDown := (handleInputKeyDown toLowerCase).
Abbreviation enabledOptionIndex := (enabledOptionIndex toLowerCase).
Abbreviation item_onMouseEnter := (item_onMouseEnter toLowerCase).
Abbreviation step := (step toLowerCase).
Abbreviation run := (run toLowerCase).
Abbreviation reachable := (reachable toLowerCase).
Abbreviation contains_ci := (contains_ci toLowerCase).

(** *** Filter stage *)

Lemma filterOptions_empty (options : list SearchableSelectOption) :
  filterOptions options "" = options.
Proof. reflexivity. Qed.

Lemma filterOptions_nonempty (options : list SearchableSelectOption)
  (search : string) :
  search <> "" ->
  filterOptions options search =
  filter (fun o => contains_ci (label o) search) options.
Proof.
  intros H. unfold filterOptions.
  destruct (JS.truthy search) eqn:E; [reflexivity |].
  apply truthy_false_iff in E. contradiction.
Qed.

Lemma filterOptions_In (options : list SearchableSelectOption)
  (search : string) (o : SearchableSelectOption) :
  In o (filterOptions options search) ->
  In o options /\ contains_ci (label o) search = true.
Proof.
  destruct (string_dec search "") as [-> | Hne].
  - rewrite filterOptions_empty. intros H. split; [exact H |].
    unfold contains_ci. rewrite toLowerCase_empty. apply includes_empty.
  - rewrite (filterOptions_nonempty _ _ Hne). intros H.
    now apply filter_In in H.
Qed.

(** C5: the filtered list is a function of the options and the search text
    alone; an empty search text returns the options unchanged; otherwise the
    result is the filter of the options, in their order, by "the lower-cased
    label contains the lower-cased search text"; hence every element of the
    result has a label containing the search text case-insensitively. *)
Theorem C5_filteredOptions_spec :
  (forall w1 w2,
      props_options w1 = props_options w2 -> searchValue w1 = searchValue w2 ->
      filteredOptions w1 = filteredOptions w2) /\
  (forall w, searchValue w = "" -> filteredOptions w = props_options w) /\
  (forall w, searchValue w <> "" ->
      filteredOptions w =
      filter (fun o => JS.includes (toLowerCase (label o))
                         (toLowerCase (searchValue w)))
        (props_options w)) /\
  (forall w, Subsequence (filteredOptions w) (props_options w)) /\
  (forall w o, searchValue w <> "" ->
      (In o (filteredOptions w) <->
       In o (props_options w) /\
       exists pre post,
         toLowerCase (label o) = (pre ++ toLowerCase (searchValue w) ++ post)%string)) /\
  (forall w o, In o (filteredOptions w) ->
      exists pre post,
        toLowerCase (label o) = (pre ++ toLowerCase (searchValue w) ++ post)%string).
Proof.
  repeat split.
  - intros w1 w2 Ho Hs. unfold filteredOptions. now rewrite Ho, Hs.
  - intros w Hs. unfold filteredOptions. rewrite Hs. apply filterOptions_empty.
  - intros w Hs. unfold filteredOptions. now rewrite filterOptions_nonempty.
  - intros w. unfold filteredOptions, filterOptions.
    destruct (negb (JS.truthy (searchValue w))).
    + apply Subsequence_refl.
    + apply filter_Subsequence.
  - unfold filteredOptions in *. rewrite (filterOptions_nonempty _ _ H) in H0.
    now apply filter_In in H0.
  - unfold filteredOptions in *. rewrite (filterOptions_nonempty _ _ H) in H0.
    apply filter_In in H0 as [_ H0]. now apply includes_spec.
  - intros [Hin Hsub]. unfold filteredOptions.
    rewrite (filterOptions_nonempty _ _ H). apply filter_In. split; [exact Hin |].
    now apply includes_spec.
  - intros w o Hin. apply filterOptions_In in Hin as [_ Hc].
    now apply includes_spec.
Qed.

(** *** Navigable subset *)

(** C6: the navigable options are the filter of the filtered options by
    "not disabled": a subsequence of them, in their order, holding exactly
    the entries that are not disabled. *)
Theorem C6_enabledFilteredOptions_spec :
  forall w,
    enabledFilteredOptions w =
      filter (fun o => negb (is_disabled o)) (filteredOptions w) /\
    Subsequence (enabledFilteredOptions w) (filteredOptions w) /\
    Forall (fun o => is_disabled o = false) (enabledFilteredOptions w) /\
    (forall o, In o (enabledFilteredOptions w) <->
               In o (filteredOptions w) /\ is_disabled o = false) /\
    (forall a b x y,
        enabledFilteredOptions w = (a ++ x :: b ++ [y])%list ->
        exists a' b' c', filteredOptions w = (a' ++ x :: b' ++ y :: c')%list).
Proof.
  intros w. unfold enabledFilteredOptions, enabledOf.
  split; [reflexivity |]. split; [apply filter_Subsequence |].
  split; [| split].
  - apply Forall_forall. intros o Ho. apply filter_In in Ho as [_ Ho].
    now apply negb_true_iff.
  - intros o. rewrite filter_In, negb_true_iff. reflexivity.
  - intros a b x y E. eapply Subsequence_order; [| exact E].
    apply filter_Subsequence.
Qed.


(** *** Highlight on open *)

Lemma getDefaultHighlightedIndex_three_tier (w : Widget) :
  getDefaultHighlightedIndex w =
  three_tier_rule (enabledFilteredOptions w) (truthy_selection (props_value w)).
Proof.
  unfold getDefaultHighlightedIndex, three_tier_rule, truthy_selection, JS.length.
  destruct (enabledFilteredOptions w) as [|o l] eqn:E; [reflexivity |].
  replace (Z.of_nat (List.length (o :: l)) =? 0) with false
    by (symmetry; apply Z.eqb_neq; simpl; lia).
  destruct (props_value w) as [v|]; simpl; [| reflexivity].
  destruct (JS.truthy v); [| reflexivity].
  change ((value o =? v)%string || existsb (fun o0 => (value o0 =? v)%string) l)
    with (existsb (fun o0 => (value o0 =? v)%string) (o :: l)).
  destruct (existsb (fun o0 => (value o0 =? v)%string) (o :: l)) eqn:Ex.
  - apply findIndex_found in Ex as [Hr _].
    destruct (Z.eqb_spec (JS.findIndex (fun o0 => (value o0 =? v)%string) (o :: l)) (-1));
      [lia | reflexivity].
  - now rewrite (findIndex_missing _ _ Ex).
Qed.

Lemma enabledFilteredOptions_handleOpenChange (b : bool) (w : Widget) :
  enabledFilteredOptions (handleOpenChange b w) = enabledFilteredOptions w.
Proof.
  destruct b; [reflexivity |].
  unfold handleOpenChange. simpl. destruct (searchResetTimeoutRef w); reflexivity.
Qed.

Lemma props_value_handleOpenChange (b : bool) (w : Widget) :
  props_value (handleOpenChange b w) = props_value w.
Proof.
  destruct b; [reflexivity |].
  unfold handleOpenChange. simpl. destruct (searchResetTimeoutRef w); reflexivity.
Qed.

(** C1 (amended): on every open the highlight is set by the three-tier rule,
    where the selected value counts only when it is a non-empty string: -1 if
    there is no navigable option; else the index of the navigable option
    whose value is the non-empty selected value; else 0.  The result does not
    depend on the highlight held before, and closing then reopening
    recomputes it by the same rule. *)
Theorem C1_open_highlight_three_tier :
  forall w,
    highlightedIndex (handleOpenChange true w) =
      three_tier_rule (enabledFilteredOptions w)
        (truthy_selection (props_value w)) /\
    open (handleOpenChange true w) = true /\
    enabledFilteredOptions (handleOpenChange true w) = enabledFilteredOptions w /\
    (forall h,
        highlightedIndex (handleOpenChange true (setHighlightedIndex h w)) =
        highlightedIndex (handleOpenChange true w)) /\
    highlightedIndex (handleOpenChange true (handleOpenChange false w)) =
      three_tier_rule (enabledFilteredOptions w)
        (truthy_selection (props_value w)).
Proof.
  intros w. repeat split.
  - apply getDefaultHighlightedIndex_three_tier.
  - change (getDefaultHighlightedIndex (handleOpenChange false w) =
            three_tier_rule (enabledFilteredOptions w)
              (truthy_selection (props_value w))).
    rewrite getDefaultHighlightedIndex_three_tier.
    now rewrite enabledFilteredOptions_handleOpenChange,
      props_value_handleOpenChange.
Qed.

(** *** Arrow keys *)

Lemma handleInputKeyDown_no_options (key : string) (w : Widget) :
  JS.length (enabledFilteredOptions w) = 0 ->
  handleInputKeyDown key w = (false, w).
Proof.
  intros H. unfold handleInputKeyDown. now rewrite H.
Qed.

Lemma handleInputKeyDown_ArrowDown (w : Widget) :
  0 < JS.length (enabledFilteredOptions w) -> -1 <= highlightedIndex w ->
  handleInputKeyDown "ArrowDown" w =
  (true,
   setHighlightedIndex
     (((if highlightedIndex w =? -1 then 0 else highlightedIndex w) + 1)
      mod JS.length (enabledFilteredOptions w)) w).
Proof.
  intros Hn Hh. unfold handleInputKeyDown.
  destruct (Z.eqb_spec (JS.length (enabledFilteredOptions w)) 0); [lia |].
  simpl. unfold JS.rem. rewrite Z.rem_mod_nonneg.
  - f_equal. f_equal.
    rewrite <- (Z.mul_1_l (JS.length (enabledFilteredOptions w))) at 1.
    apply Z_mod_plus_full.
  - destruct (highlightedIndex w =? -1) eqn:E; [lia |].
    apply Z.eqb_neq in E. lia.
  - lia.
Qed.

Lemma handleInputKeyDown_ArrowUp (w : Widget) :
  0 < JS.length (enabledFilteredOptions w) -> -1 <= highlightedIndex w ->
  handleInputKeyDown "ArrowUp" w =
  (true,
   setHighlightedIndex
     (((if highlightedIndex w =? -1 then 0 else highlightedIndex w) - 1
       + JS.length (enabledFilteredOptions w))
      mod JS.length (enabledFilteredOptions w)) w).
Proof.
  intros Hn Hh. unfold handleInputKeyDown.
  destruct (Z.eqb_spec (JS.length (enabledFilteredOptions w)) 0); [lia |].
  simpl. unfold JS.rem. rewrite Z.rem_mod_nonneg.
  - reflexivity.
  - destruct (highlightedIndex w =? -1) eqn:E; [lia |].
    apply Z.eqb_neq in E. lia.
  - lia.
Qed.


(** C2 (amended): with N > 0 navigable options, ArrowDown sets the highlight
    to ((current == -1 ? 0 : current) + 1) mod N and ArrowUp sets it to
    ((current == -1 ? 0 : current) - 1 + N) mod N, changing nothing else.  So
    ArrowDown from N-1 gives 0, ArrowUp from 0 gives N-1, and from -1
    ArrowDown gives 1 mod N and ArrowUp gives N-1.  With N = 0 both keys
    leave the widget as it is. *)
Theorem C2_arrow_keys :
  forall w,
    let n := JS.length (enabledFilteredOptions w) in
    let safeIndex := if highlightedIndex w =? -1 then 0 else highlightedIndex w in
    (0 < n -> -1 <= highlightedIndex w ->
       step w (InputKeyDown "ArrowDown") =
         setHighlightedIndex ((safeIndex + 1) mod n) w /\
       step w (InputKeyDown "ArrowUp") =
         setHighlightedIndex ((safeIndex - 1 + n) mod n) w /\
       (highlightedIndex w = n - 1 ->
          highlightedIndex (step w (InputKeyDown "ArrowDown")) = 0) /\
       (highlightedIndex w = 0 ->
          highlightedIndex (step w (InputKeyDown "ArrowUp")) = n - 1) /\
       (highlightedIndex w = -1 ->
          highlightedIndex (step w (InputKeyDown "ArrowDown")) = 1 mod n /\
          highlightedIndex (step w (InputKeyDown "ArrowUp")) = n - 1)) /\
    (n = 0 ->
       step w (InputKeyDown "ArrowDown") = w /\
       step w (InputKeyDown "ArrowUp") = w).
Proof.
  intros w n safeIndex. split.
  - intros Hn Hh. unfold step.
    rewrite (handleInputKeyDown_ArrowDown w Hn Hh).
    rewrite (handleInputKeyDown_ArrowUp w Hn Hh).
    fold n. fold safeIndex. cbn [snd].
    split; [reflexivity |]. split; [reflexivity |].
    cbn [highlightedIndex setHighlightedIndex]. subst safeIndex.
    split; [| split].
    + intros E. rewrite E.
      destruct (Z.eqb_spec (n - 1) (-1)); [lia |].
      replace (n - 1 + 1) with n by lia. apply Z.mod_same. lia.
    + intros E. rewrite E. rewrite Z.eqb_sym. cbn [Z.eqb].
      replace (0 - 1 + n) with (n - 1) by lia. apply Z.mod_small. lia.
    + intros E. rewrite E. rewrite Z.eqb_refl. split; [reflexivity |].
      replace (0 - 1 + n) with (n - 1) by lia. apply Z.mod_small. lia.
  - intros Hn. unfold step.
    now rewrite !(handleInputKeyDown_no_options _ w Hn).
Qed.

(** *** Enter *)

Lemma at_index_Some_range {A : Type} (l : list A) (i : Z) (x : A) :
  JS.at_index l i = Some x -> 0 <= i < JS.length l.
Proof.
  unfold JS.at_index, JS.length. intros H.
  destruct (Z.ltb_spec i 0); [discriminate |].
  assert (Hlt : (Z.to_nat i < List.length l)%nat).
  { apply nth_error_Some. congruence. }
  lia.
Qed.

Lemma handleInputKeyDown_Enter_in_range (w : Widget) (o : SearchableSelectOption) :
  JS.at_index (enabledFilteredOptions w) (highlightedIndex w) = Some o ->
  handleInputKeyDown "Enter" w = (true, handleSelect (value o) w).
Proof.
  intros H. pose proof (at_index_Some_range _ _ _ H) as Hr.
  unfold handleInputKeyDown.
  destruct (Z.eqb_spec (JS.length (enabledFilteredOptions w)) 0); [lia |].
  simpl. destruct (Z.geb_spec (highlightedIndex w) 0); [| lia].
  now rewrite H.
Qed.

Lemma handleInputKeyDown_Enter_out_of_range (w : Widget) :
  0 < JS.length (enabledFilteredOptions w) ->
  JS.length (enabledFilteredOptions w) <= highlightedIndex w ->
  handleInputKeyDown "Enter" w = (true, w).
Proof.
  intros Hn Hh. unfold handleInputKeyDown.
  destruct (Z.eqb_spec (JS.length (enabledFilteredOptions w)) 0); [lia |].
  simpl. destruct (Z.geb_spec (highlightedIndex w) 0); [| lia].
  rewrite at_index_out_of_range; [reflexivity | now right].
Qed.

Lemma handleInputKeyDown_Enter_negative (w : Widget) :
  highlightedIndex w < 0 -> handleInputKeyDown "Enter" w = (false, w).
Proof.
  intros Hh. unfold handleInputKeyDown.
  destruct (JS.length (enabledFilteredOptions w) =? 0); [reflexivity |].
  simpl. destruct (Z.geb_spec (highlightedIndex w) 0); [lia | reflexivity].
Qed.

(** C3 (amended): Enter pressed while the highlight is a valid index of the
    navigable options (0 <= HighlightIndex < N) closes the widget and calls
    the callback exactly once, with the value of the highlighted navigable
    option, and changes nothing else; Enter pressed while the highlight is -1
    does nothing: no callback, no close, no state change. *)
Theorem C3_enter_confirms_in_range :
  forall w,
    (0 <= highlightedIndex w < JS.length (enabledFilteredOptions w) ->
       exists o,
         JS.at_index (enabledFilteredOptions w) (highlightedIndex w) = Some o /\
         step w (InputKeyDown "Enter") = onValueChange (value o) (setOpen false w) /\
         open (step w (InputKeyDown "Enter")) = false /\
         onValueChange_calls (step w (InputKeyDown "Enter")) =
           (onValueChange_calls w ++ [value o])%list) /\
    (highlightedIndex w = -1 ->
       handleInputKeyDown "Enter" w = (false, w) /\
       step w (InputKeyDown "Enter") = w).
Proof.
  intros w. split.
  - intros Hr. destruct (at_index_in_range _ _ Hr) as [o [Ho _]].
    exists o. unfold step.
    rewrite (handleInputKeyDown_Enter_in_range w o Ho).
    repeat split. exact Ho.
  - intros Hh. unfold step.
    rewrite handleInputKeyDown_Enter_negative by lia. now split.
Qed.

(** C10: Enter pressed while there are navigable options but the highlight
    is at or past their number finds no option at that index and does
    nothing to the widget: the callback is not called and the popover stays
    as it was. *)
Theorem C10_enter_stale_index_guarded :
  forall w,
    0 < JS.length (enabledFilteredOptions w) ->
    JS.length (enabledFilteredOptions w) <= highlightedIndex w ->
    JS.at_index (enabledFilteredOptions w) (highlightedIndex w) = None /\
    step w (InputKeyDown "Enter") = w /\
    onValueChange_calls (step w (InputKeyDown "Enter")) = onValueChange_calls w /\
    open (step w (InputKeyDown "Enter")) = open w.
Proof.
  intros w Hn Hh.
  split; [apply at_index_out_of_range; now right |].
  unfold step. rewrite (handleInputKeyDown_Enter_out_of_range w Hn Hh).
  repeat split.
Qed.

(** *** Pointer events on a row *)

Lemma enabledOptionIndex_range (w : Widget) (o : SearchableSelectOption) :
  In o (filteredOptions w) -> is_disabled o = false ->
  0 <= enabledOptionIndex o w < JS.length (enabledFilteredOptions w).
Proof.
  intros Hin Hd. unfold enabledOptionIndex.
  apply findIndex_found. apply existsb_exists. exists o. split.
  - unfold enabledFilteredOptions, enabledOf. apply filter_In.
    split; [exact Hin | now rewrite Hd].
  - apply String.eqb_refl.
Qed.

(** C8 (amended): the [onSelect] handler of a visible row closes the widget
    and reports that row's value through the callback, exactly once, whether
    or not the option is disabled: the handler has no guard of its own.  The
    widget hands each row's disabled flag to the toolkit item; an item that
    honours the flag never runs the handler of a disabled option, so through
    it a click on an enabled option commits and a click on a disabled option
    is inert. *)
Theorem C8_row_click :
  forall w row o,
    nth_error (filteredOptions w) row = Some o ->
    step w (ItemSelect row) = onValueChange (value o) (setOpen false w) /\
    open (step w (ItemSelect row)) = false /\
    onValueChange_calls (step w (ItemSelect row)) =
      (onValueChange_calls w ++ [value o])%list /\
    item_disabled o = is_disabled o /\
    (is_disabled o = false -> CommandItem_click o w = step w (ItemSelect row)) /\
    (is_disabled o = true -> CommandItem_click o w = w).
Proof.
  intros w row o H. unfold step. rewrite H.
  repeat split.
  - intros Hd. unfold CommandItem_click, item_disabled. now rewrite Hd.
  - intros Hd. unfold CommandItem_click, item_disabled. now rewrite Hd.
Qed.


Lemma getDefaultHighlightedIndex_range (w : Widget) :
  -1 <= getDefaultHighlightedIndex w <= JS.length (enabledFilteredOptions w) - 1 /\
  (getDefaultHighlightedIndex w = -1 <-> JS.length (enabledFilteredOptions w) = 0).
Proof.
  rewrite getDefaultHighlightedIndex_three_tier.
  unfold three_tier_rule, JS.length.
  destruct (enabledFilteredOptions w) as [|o l]; [simpl; lia |].
  destruct (truthy_selection (props_value w)) as [v|].
  - destruct (existsb (fun o0 => (value o0 =? v)%string) (o :: l)) eqn:Ex.
    + apply findIndex_found in Ex as [Hr _]. unfold JS.length in Hr.
      simpl List.length in *. lia.
    + simpl List.length. lia.
  - simpl List.length. lia.
Qed.

(** *** Time *)

Lemma setSearchValue_self (w : Widget) : setSearchValue (searchValue w) w = w.
Proof. destruct w; reflexivity. Qed.

Lemma runTimerCallbacks_shape (l : list Timer) (w : Widget) :
  exists s,
    fold_left (fun acc tm => runTimerCallback (timer_callback tm) acc) l w =
    setSearchValue s w.
Proof.
  revert w. induction l as [|tm l IH]; intros w; simpl.
  - exists (searchValue w). symmetry. apply setSearchValue_self.
  - destruct (IH (runTimerCallback (timer_callback tm) w)) as [s Hs].
    exists s. rewrite Hs. unfold runTimerCallback.
    destruct (timer_callback tm); [destruct (isMountedRef w) |]; reflexivity.
Qed.

(** Time passing only drops the timers that came due and may empty the
    search text. *)
Lemma advance_shape (dt : nat) (w : Widget) :
  exists s,
    advance dt w =
    setSearchValue s
      (set_clock (now w + dt)%nat
         (filter (fun tm => negb (timer_due tm <=? now w + dt)%nat) (timers w)) w).
Proof. unfold advance. apply runTimerCallbacks_shape. Qed.

Lemma advance_no_timers (dt : nat) (w : Widget) :
  timers w = [] -> advance dt w = set_clock (now w + dt)%nat [] w.
Proof. intros H. unfold advance. rewrite H. reflexivity. Qed.

(** *** Events that leave the highlight alone *)

Lemma step_keeps_highlight (w : Widget) (e : Event) :
  e = InputKeyDown "Enter" \/ (exists row, e = ItemSelect row) \/
  e = EscapeKey \/ (exists options, e = PropsOptions options) \/
  (exists v, e = PropsValue v) \/ (exists dt, e = TimePasses dt) \/
  e = Unmount ->
  highlightedIndex (step w e) = highlightedIndex w.
Proof.
  intros [-> | [[row ->] | [-> | [[options ->] | [[v ->] | [[dt ->] | ->]]]]]];
    unfold step.
  - unfold handleInputKeyDown.
    destruct (JS.length (enabledFilteredOptions w) =? 0); [reflexivity |].
    simpl. destruct (highlightedIndex w >=? 0); [| reflexivity].
    destruct (JS.at_index (enabledFilteredOptions w) (highlightedIndex w));
      reflexivity.
  - destruct (nth_error (filteredOptions w) row); reflexivity.
  - reflexivity.
  - reflexivity.
  - unfold receiveValue.
    destruct (JS.opt_string_eqb v (props_value w)); reflexivity.
  - destruct (advance_shape dt w) as [s ->]. reflexivity.
  - destruct w as [pv po op sv hi [r|] im vid nw ts nx calls fc]; reflexivity.
Qed.

(** *** Highlight on search-text change *)

(** C7 (amended): a search-text change made through the search input stores
    the typed text and sets the highlight to 0, whatever the previous
    highlight, the selected value and the number of navigable options are,
    and changes nothing else.  The debounced resets, which run when time
    passes, leave the highlight and the open state as they are. *)
Theorem C7_search_change_resets_highlight :
  forall w text,
    step w (InputValueChange text) =
      setHighlightedIndex 0 (setSearchValue text w) /\
    highlightedIndex (step w (InputValueChange text)) = 0 /\
    searchValue (step w (InputValueChange text)) = text /\
    open (step w (InputValueChange text)) = open w /\
    onValueChange_calls (step w (InputValueChange text)) = onValueChange_calls w /\
    forall dt,
      highlightedIndex (step w (TimePasses dt)) = highlightedIndex w /\
      open (step w (TimePasses dt)) = open w.
Proof.
  intros w text. do 5 (split; [reflexivity |]).
  intros dt. unfold step. destruct (advance_shape dt w) as [s ->].
  split; reflexivity.
Qed.

(** *** Range of the highlight *)

Lemma handleInputKeyDown_highlight_lower (key : string) (w : Widget) :
  -1 <= highlightedIndex w ->
  -1 <= highlightedIndex (snd (handleInputKeyDown key w)).
Proof.
  intros Hh. unfold handleInputKeyDown.
  destruct (Z.eqb_spec (JS.length (enabledFilteredOptions w)) 0) as [|Hn];
    [exact Hh |].
  assert (0 < JS.length (enabledFilteredOptions w)) by (unfold JS.length in *; lia).
  destruct ((key =? "ArrowDown")%string || (key =? "ArrowUp")%string).
  - cbn [snd highlightedIndex setHighlightedIndex]. unfold JS.rem.
    assert (0 <= (if highlightedIndex w =? -1 then 0 else highlightedIndex w)).
    { destruct (Z.eqb_spec (highlightedIndex w) (-1)); lia. }
    assert (0 <= Z.rem
              ((if highlightedIndex w =? -1 then 0 else highlightedIndex w) +
               (if (key =? "ArrowDown")%string then 1 else -1) +
               JS.length (enabledFilteredOptions w))
              (JS.length (enabledFilteredOptions w))).
    { apply Z.rem_nonneg; [lia |]. destruct (key =? "ArrowDown")%string; lia. }
    lia.
  - destruct ((key =? "Enter")%string && (highlightedIndex w >=? 0)); [| exact Hh].
    destruct (JS.at_index (enabledFilteredOptions w) (highlightedIndex w));
      exact Hh.
Qed.

Lemma step_highlight_lower (w : Widget) (e : Event) :
  -1 <= highlightedIndex w -> -1 <= highlightedIndex (step w e).
Proof.
  intros Hh. destruct e as [o|text|key| |row|row| |options|v|dt| ]; simpl.
  - destruct o.
    + apply getDefaultHighlightedIndex_range.
    + unfold handleOpenChange. simpl.
      destruct (searchResetTimeoutRef w); simpl; lia.
  - lia.
  - now apply handleInputKeyDown_highlight_lower.
  - exact Hh.
  - destruct (nth_error (filteredOptions w) row); exact Hh.
  - destruct (nth_error (filteredOptions w) row) as [o|]; [| exact Hh].
    unfold item_onMouseEnter. destruct (negb (is_disabled o)); [| exact Hh].
    apply findIndex_lower.
  - exact Hh.
  - exact Hh.
  - unfold receiveValue. destruct (JS.opt_string_eqb v (props_value w)); exact Hh.
  - destruct (advance_shape dt w) as [s ->]. exact Hh.
  - unfold unmount. simpl. destruct (searchResetTimeoutRef w); exact Hh.
Qed.

Lemma run_highlight_lower (es : list Event) (w : Widget) :
  -1 <= highlightedIndex w -> -1 <= highlightedIndex (run w es).
Proof.
  revert w. induction es as [|e es IH]; intros w Hh; simpl.
  - exact Hh.
  - apply IH. now apply step_highlight_lower.
Qed.

Lemma reachable_highlight_lower (w : Widget) :
  reachable w -> -1 <= highlightedIndex w.
Proof.
  intros [v [options [es ->]]]. apply run_highlight_lower. simpl. lia.
Qed.

(** C4 (amended): in every reachable state the highlight is an integer not
    below -1.  Right after an open it lies in [-1, N-1] and is -1 exactly
    when there is no navigable option; right after ArrowDown or ArrowUp with
    N > 0, and right after the pointer enters an enabled visible row, it lies
    in [0, N-1]; entering a disabled row changes nothing.  The popover
    reporting a close sets it to -1; typing a search text sets it to 0
    whatever N is; Enter, a row's [onSelect], the Escape callback, a change
    of the options or of the value, time passing and unmount leave it as it
    is.  Whenever it lies in [0, N-1] it indexes an option that is visible
    (in the filtered list) and enabled. *)
Theorem C4_highlight_bounds :
  forall w,
    reachable w ->
    let n := fun w' => JS.length (enabledFilteredOptions w') in
    -1 <= highlightedIndex w /\
    (let w' := step w (PopoverOpenChange true) in
     -1 <= highlightedIndex w' <= n w' - 1 /\
     (highlightedIndex w' = -1 <-> n w' = 0)) /\
    highlightedIndex (step w (PopoverOpenChange false)) = -1 /\
    (forall key, key = "ArrowDown" \/ key = "ArrowUp" -> 0 < n w ->
       let w' := step w (InputKeyDown key) in
       0 <= highlightedIndex w' <= n w' - 1) /\
    (forall row o, nth_error (filteredOptions w) row = Some o ->
       let w' := step w (ItemMouseEnter row) in
       if is_disabled o then w' = w
       else 0 <= highlightedIndex w' <= n w' - 1) /\
    (0 <= highlightedIndex w <= n w - 1 ->
       exists o,
         JS.at_index (enabledFilteredOptions w) (highlightedIndex w) = Some o /\
         In o (filteredOptions w) /\ is_disabled o = false) /\
    (forall text, highlightedIndex (step w (InputValueChange text)) = 0) /\
    (forall e,
       e = InputKeyDown "Enter" \/ (exists row, e = ItemSelect row) \/
       e = EscapeKey \/ (exists options, e = PropsOptions options) \/
       (exists v, e = PropsValue v) \/ (exists dt, e = TimePasses dt) \/
       e = Unmount ->
       highlightedIndex (step w e) = highlightedIndex w).
Proof.
  intros w Hr n. pose proof (reachable_highlight_lower w Hr) as Hl.
  split; [exact Hl |].
  split; [| split; [| split; [| split; [| split; [| split]]]]];
    [| | | | | reflexivity | intros e He; now apply step_keeps_highlight].
  - subst n. cbv beta zeta. unfold step.
    rewrite enabledFilteredOptions_handleOpenChange.
    apply getDefaultHighlightedIndex_range.
  - unfold step, handleOpenChange. simpl.
    destruct (searchResetTimeoutRef w); reflexivity.
  - intros key Hk Hn. subst n. cbv beta in *. cbn zeta.
    unfold step.
    destruct Hk as [-> | ->];
      [rewrite (handleInputKeyDown_ArrowDown w Hn Hl)
      | rewrite (handleInputKeyDown_ArrowUp w Hn Hl)];
      cbn [snd highlightedIndex setHighlightedIndex];
      change (enabledFilteredOptions (setHighlightedIndex _ w))
        with (enabledFilteredOptions w).
    + pose proof (Z.mod_pos_bound
        ((if highlightedIndex w =? -1 then 0 else highlightedIndex w) + 1)
        (JS.length (enabledFilteredOptions w)) Hn). lia.
    + pose proof (Z.mod_pos_bound
        ((if highlightedIndex w =? -1 then 0 else highlightedIndex w) - 1
         + JS.length (enabledFilteredOptions w))
        (JS.length (enabledFilteredOptions w)) Hn). lia.
  - intros row o Ho. subst n. cbv beta. cbn zeta. unfold step. rewrite Ho.
    unfold item_onMouseEnter. destruct (is_disabled o) eqn:Hd; [reflexivity |].
    cbn [negb highlightedIndex setHighlightedIndex].
    change (enabledFilteredOptions (setHighlightedIndex _ w))
      with (enabledFilteredOptions w).
    pose proof (enabledOptionIndex_range w o (nth_error_In _ _ Ho) Hd). lia.
  - intros Hin. subst n. cbv beta in Hin.
    destruct (at_index_in_range (enabledFilteredOptions w) (highlightedIndex w))
      as [o [Ho Hm]]; [lia |].
    exists o. split; [exact Ho |].
    unfold enabledFilteredOptions, enabledOf in Hm.
    apply filter_In in Hm as [Hf Hd]. split; [exact Hf |].
    now apply negb_true_iff.
Qed.


(** *** Pending resets *)

Lemma filter_none {A : Type} (p : A -> bool) (l : list A) :
  (forall x, In x l -> p x = false) -> filter p l = [].
Proof.
  induction l as [|x l IH]; intros H; simpl; [reflexivity |].
  rewrite (H x (or_introl eq_refl)). apply IH. intros y Hy. apply H. now right.
Qed.

Lemma timers_tracked_incl (w w' : Widget) :
  incl (timers w') (timers w) ->
  searchResetTimeoutRef w' = searchResetTimeoutRef w ->
  valueEffectTimeoutId w' = valueEffectTimeoutId w ->
  timers_tracked w -> timers_tracked w'.
Proof.
  intros Hi Hr Hv Ht t Hin. rewrite Hr, Hv. apply Ht, Hi, Hin.
Qed.

Lemma handleInputKeyDown_timers (key : string) (w : Widget) :
  timers (snd (handleInputKeyDown key w)) = timers w /\
  searchResetTimeoutRef (snd (handleInputKeyDown key w)) = searchResetTimeoutRef w /\
  valueEffectTimeoutId (snd (handleInputKeyDown key w)) = valueEffectTimeoutId w.
Proof.
  unfold handleInputKeyDown.
  destruct (JS.length (enabledFilteredOptions w) =? 0); [now repeat split |].
  destruct ((key =? "ArrowDown")%string || (key =? "ArrowUp")%string);
    [now repeat split |].
  destruct ((key =? "Enter")%string && (highlightedIndex w >=? 0));
    [| now repeat split].
  destruct (JS.at_index (enabledFilteredOptions w) (highlightedIndex w));
    now repeat split.
Qed.

(** Timers left pending by a close: the earlier close reset is gone, the new
    one is queued behind the rest. *)
Lemma timers_handleOpenChange_close (w : Widget) :
  timers (handleOpenChange false w) =
    (match searchResetTimeoutRef w with
     | Some id => filter (fun t => negb (Nat.eqb (timer_id t) id)) (timers w)
     | None => timers w
     end ++ [mkTimer (nextTimerId w) (now w + 100) CloseResetCallback])%list /\
  searchResetTimeoutRef (handleOpenChange false w) = Some (nextTimerId w) /\
  valueEffectTimeoutId (handleOpenChange false w) = valueEffectTimeoutId w.
Proof.
  unfold handleOpenChange. simpl. destruct (searchResetTimeoutRef w); now repeat split.
Qed.

Lemma timers_receiveValue_changed (v : option string) (w : Widget) :
  JS.opt_string_eqb v (props_value w) = false ->
  timers (receiveValue v w) =
    (filter (fun t => negb (Nat.eqb (timer_id t) (valueEffectTimeoutId w))) (timers w)
     ++ [mkTimer (nextTimerId w) (now w + 100) ValueResetCallback])%list /\
  searchResetTimeoutRef (receiveValue v w) = searchResetTimeoutRef w /\
  valueEffectTimeoutId (receiveValue v w) = nextTimerId w.
Proof.
  intros H. unfold receiveValue. rewrite H. now repeat split.
Qed.

Lemma close_resets_cleared (w : Widget) :
  timers_tracked w ->
  filter is_close_reset
    (match searchResetTimeoutRef w with
     | Some id => filter (fun t => negb (Nat.eqb (timer_id t) id)) (timers w)
     | None => timers w
     end) = [].
Proof.
  intros Ht. apply filter_none. intros t Hin.
  unfold is_close_reset. destruct (timer_callback t) eqn:Hc; [reflexivity |].
  destruct (searchResetTimeoutRef w) as [id|] eqn:Hr.
  - apply filter_In in Hin as [Hin Hne]. specialize (Ht t Hin).
    rewrite Hc, Hr in Ht. injection Ht as ->.
    now rewrite Nat.eqb_refl in Hne.
  - specialize (Ht t Hin). rewrite Hc, Hr in Ht. discriminate.
Qed.

Lemma value_resets_cleared (w : Widget) :
  timers_tracked w ->
  filter is_value_reset
    (filter (fun t => negb (Nat.eqb (timer_id t) (valueEffectTimeoutId w))) (timers w))
  = [].
Proof.
  intros Ht. apply filter_none. intros t Hin.
  unfold is_value_reset. destruct (timer_callback t) eqn:Hc; [| reflexivity].
  apply filter_In in Hin as [Hin Hne]. specialize (Ht t Hin).
  rewrite Hc in Ht. rewrite Ht, Nat.eqb_refl in Hne. discriminate.
Qed.

Lemma unmount_frame (w : Widget) :
  incl (timers (unmount w)) (timers w) /\
  searchResetTimeoutRef (unmount w) = searchResetTimeoutRef w /\
  valueEffectTimeoutId (unmount w) = valueEffectTimeoutId w /\
  searchValue (unmount w) = searchValue w.
Proof.
  destruct w as [pv po op sv hi [r|] im vid nw ts nx calls fc];
    unfold unmount; simpl; repeat split;
    try (eapply incl_tran; apply incl_filter); apply incl_filter.
Qed.

Lemma step_timers_tracked (w : Widget) (e : Event) :
  timers_tracked w -> timers_tracked (step w e).
Proof.
  intros Ht. destruct e as [o|text|key| |row|row| |options|v|dt| ]; simpl.
  - destruct o; [exact Ht |].
    destruct (timers_handleOpenChange_close w) as [Ets [Er Ev]].
    intros t Hin. rewrite Ets in Hin. rewrite Er, Ev.
    apply in_app_or in Hin as [Hin | [<- | []]]; [| reflexivity].
    destruct (timer_callback t) eqn:Hc.
    + assert (Hin' : In t (timers w)).
      { destruct (searchResetTimeoutRef w); [now apply filter_In in Hin | exact Hin]. }
      specialize (Ht t Hin'). now rewrite Hc in Ht.
    + pose proof (close_resets_cleared w Ht) as Hnone.
      assert (Hf : In t (filter is_close_reset
                (match searchResetTimeoutRef w with
                 | Some id => filter (fun t => negb (Nat.eqb (timer_id t) id)) (timers w)
                 | None => timers w
                 end))).
      { apply filter_In. split; [exact Hin |]. unfold is_close_reset. now rewrite Hc. }
      rewrite Hnone in Hf. destruct Hf.
  - exact Ht.
  - destruct (handleInputKeyDown_timers key w) as [Ets [Er Ev]].
    eapply timers_tracked_incl; [| exact Er | exact Ev | exact Ht].
    rewrite Ets. apply incl_refl.
  - exact Ht.
  - destruct (nth_error (filteredOptions w) row); exact Ht.
  - destruct (nth_error (filteredOptions w) row) as [o|]; [| exact Ht].
    unfold item_onMouseEnter. destruct (negb (is_disabled o)); exact Ht.
  - exact Ht.
  - exact Ht.
  - destruct (JS.opt_string_eqb v (props_value w)) eqn:E.
    + unfold receiveValue. rewrite E. exact Ht.
    + destruct (timers_receiveValue_changed v w E) as [Ets [Er Ev]].
      intros t Hin. rewrite Ets in Hin. rewrite Er, Ev.
      apply in_app_or in Hin as [Hin | [<- | []]]; [| reflexivity].
      destruct (timer_callback t) eqn:Hc.
      * pose proof (value_resets_cleared w Ht) as Hnone.
        assert (Hf : In t (filter is_value_reset
                  (filter (fun t => negb (Nat.eqb (timer_id t) (valueEffectTimeoutId w)))
                     (timers w)))).
        { apply filter_In. split; [exact Hin |]. unfold is_value_reset. now rewrite Hc. }
        rewrite Hnone in Hf. destruct Hf.
      * apply filter_In in Hin as [Hin _]. specialize (Ht t Hin).
        now rewrite Hc in Ht.
  - destruct (advance_shape dt w) as [s ->].
    eapply timers_tracked_incl; [| | | exact Ht]; try reflexivity.
    simpl. apply incl_filter.
  - destruct (unmount_frame w) as [Hi [Er [Ev _]]].
    eapply timers_tracked_incl; eassumption.
Qed.

Lemma reachable_timers_tracked (w : Widget) :
  reachable w -> timers_tracked w.
Proof.
  intros [v [options [es ->]]].
  assert (H0 : timers_tracked (mount v options)).
  { intros t [<- | []]. reflexivity. }
  revert H0. generalize (mount v options).
  induction es as [|e es IH]; intros w0 H0; simpl.
  - exact H0.
  - apply IH. now apply step_timers_tracked.
Qed.

Lemma unmount_clears_timers (w : Widget) :
  timers_tracked w -> timers (unmount w) = [].
Proof.
  intros Ht. unfold unmount. simpl.
  destruct (searchResetTimeoutRef w) as [id|] eqn:Hr; simpl;
    apply filter_none; intros t Hin.
  - apply filter_In in Hin as [Hin Hne]. specialize (Ht t Hin).
    destruct (timer_callback t).
    + rewrite Ht, Nat.eqb_refl. reflexivity.
    + rewrite Hr in Ht. injection Ht as ->. now rewrite Nat.eqb_refl in Hne.
  - specialize (Ht t Hin). destruct (timer_callback t).
    + rewrite Ht, Nat.eqb_refl. reflexivity.
    + rewrite Hr in Ht. discriminate.
Qed.

Lemma run_time_without_timers (dts : list nat) (w : Widget) :
  timers w = [] ->
  timers (run w (map TimePasses dts)) = [] /\
  searchValue (run w (map TimePasses dts)) = searchValue w.
Proof.
  revert w. induction dts as [|dt dts IH]; intros w H; simpl.
  - now split.
  - rewrite (advance_no_timers dt w H).
    destruct (IH (set_clock (now w + dt)%nat [] w) eq_refl) as [H1 H2].
    now split.
Qed.

Lemma runTimerCallbacks_keep_empty (l : list Timer) (w : Widget) :
  searchValue w = "" ->
  searchValue
    (fold_left (fun acc tm => runTimerCallback (timer_callback tm) acc) l w) = "".
Proof.
  revert w. induction l as [|tm l IH]; intros w H; simpl; [exact H |].
  apply IH. unfold runTimerCallback.
  destruct (timer_callback tm); [destruct (isMountedRef w) |]; try exact H; reflexivity.
Qed.

Lemma runTimerCallbacks_close_reset (l : list Timer) (w : Widget) :
  (exists tm, In tm l /\ timer_callback tm = CloseResetCallback) ->
  searchValue
    (fold_left (fun acc tm => runTimerCallback (timer_callback tm) acc) l w) = "".
Proof.
  revert w. induction l as [|tm l IH]; intros w [t [Hin Hc]]; simpl.
  - destruct Hin.
  - destruct Hin as [-> | Hin].
    + rewrite Hc. apply runTimerCallbacks_keep_empty. reflexivity.
    + apply IH. now exists t.
Qed.

(** A close that is followed by 100 idle milliseconds empties the search
    text. *)
Lemma close_then_wait_resets (w : Widget) :
  searchValue (advance 100 (handleOpenChange false w)) = "".
Proof.
  unfold advance. apply runTimerCallbacks_close_reset.
  exists (mkTimer (nextTimerId w) (now w + 100) CloseResetCallback).
  split; [| reflexivity].
  apply filter_In. split.
  - destruct (timers_handleOpenChange_close w) as [-> _].
    apply in_or_app. right. now left.
  - cbn [timer_due]. apply Nat.leb_le.
    replace (now (handleOpenChange false w)) with (now w); [lia |].
    unfold handleOpenChange. simpl. destruct (searchResetTimeoutRef w); reflexivity.
Qed.

(** C9 (amended): no reset is pending once the instance is torn down, so
    none fires afterwards, however much time passes.  A close cancels the
    close reset that was pending and leaves exactly one, due 100ms later,
    which empties the search text if those 100ms pass undisturbed; a change
    of the committed value likewise cancels the pending value reset and
    leaves exactly one, due 100ms later.  An open cancels nothing: the
    pending timers stay as they are. *)
Theorem C9_reset_timers :
  forall w,
    reachable w ->
    (timers (step w Unmount) = [] /\
     forall dts,
       timers (run (step w Unmount) (map TimePasses dts)) = [] /\
       searchValue (run (step w Unmount) (map TimePasses dts)) = searchValue w) /\
    (filter is_close_reset (timers (step w (PopoverOpenChange false))) =
       [mkTimer (nextTimerId w) (now w + 100) CloseResetCallback] /\
     searchValue (step (step w (PopoverOpenChange false)) (TimePasses 100)) = "") /\
    (forall v, JS.opt_string_eqb v (props_value w) = false ->
       filter is_value_reset (timers (step w (PropsValue v))) =
       [mkTimer (nextTimerId w) (now w + 100) ValueResetCallback]) /\
    timers (step w (PopoverOpenChange true)) = timers w.
Proof.
  intros w Hr. pose proof (reachable_timers_tracked w Hr) as Ht.
  split; [| split; [| split]].
  - pose proof (unmount_clears_timers w Ht) as Hu. split; [exact Hu |].
    intros dts. destruct (run_time_without_timers dts (unmount w) Hu) as [H1 H2].
    split; [exact H1 |]. unfold step at 1. rewrite H2.
    apply unmount_frame.
  - split; [| apply close_then_wait_resets].
    unfold step. destruct (timers_handleOpenChange_close w) as [-> _].
    rewrite filter_app, (close_resets_cleared w Ht). reflexivity.
  - intros v Hv. unfold step.
    destruct (timers_receiveValue_changed v w Hv) as [-> _].
    rewrite filter_app, (value_resets_cleared w Ht). reflexivity.
  - reflexivity.
Qed.


(** *** What the events leave alone *)

Lemma filteredOptions_incl (w : Widget) (o : SearchableSelectOption) :
  In o (filteredOptions w) -> In o (props_options w).
Proof.
  unfold filteredOptions, filterOptions.
  destruct (negb (JS.truthy (searchValue w))); [trivial |].
  intros H. now apply filter_In in H.
Qed.

Lemma enabledFilteredOptions_In (w : Widget) (o : SearchableSelectOption) :
  In o (enabledFilteredOptions w) <->
  In o (filteredOptions w) /\ is_disabled o = false.
Proof.
  unfold enabledFilteredOptions, enabledOf.
  rewrite filter_In, negb_true_iff. reflexivity.
Qed.

Lemma at_index_In {A : Type} (l : list A) (i : Z) (x : A) :
  JS.at_index l i = Some x -> In x l.
Proof.
  unfold JS.at_index. destruct (i <? 0); [discriminate |].
  apply nth_error_In.
Qed.

(** The four outcomes of a key press. *)
Lemma handleInputKeyDown_cases (key : string) (w : Widget) :
  handleInputKeyDown key w = (false, w) \/
  handleInputKeyDown key w = (true, w) \/
  (exists i, handleInputKeyDown key w = (true, setHighlightedIndex i w)) \/
  (exists o,
      key = "Enter" /\
      JS.at_index (enabledFilteredOptions w) (highlightedIndex w) = Some o /\
      handleInputKeyDown key w = (true, handleSelect (value o) w)).
Proof.
  unfold handleInputKeyDown.
  destruct (JS.length (enabledFilteredOptions w) =? 0); [now left |].
  destruct ((key =? "ArrowDown")%string || (key =? "ArrowUp")%string).
  { right. right. left. eexists. reflexivity. }
  destruct (String.eqb_spec key "Enter") as [-> | Hk]; [| now left].
  destruct (highlightedIndex w >=? 0); [| now left]. simpl.
  destruct (JS.at_index (enabledFilteredOptions w) (highlightedIndex w)) as [o|] eqn:E.
  - right. right. right. now exists o.
  - right. now left.
Qed.

Lemma unmount_props (w : Widget) :
  props_value (unmount w) = props_value w /\
  props_options (unmount w) = props_options w /\
  open (unmount w) = open w /\
  highlightedIndex (unmount w) = highlightedIndex w /\
  onValueChange_calls (unmount w) = onValueChange_calls w.
Proof.
  destruct w as [pv po op sv hi [r|] im vid nw ts nx calls fc];
    unfold unmount; simpl; now repeat split.
Qed.

Lemma receiveValue_frame (v : option string) (w : Widget) :
  props_options (receiveValue v w) = props_options w /\
  open (receiveValue v w) = open w /\
  searchValue (receiveValue v w) = searchValue w /\
  highlightedIndex (receiveValue v w) = highlightedIndex w /\
  onValueChange_calls (receiveValue v w) = onValueChange_calls w.
Proof.
  unfold receiveValue. destruct (JS.opt_string_eqb v (props_value w));
    now repeat split.
Qed.

Lemma handleOpenChange_frame (b : bool) (w : Widget) :
  props_options (handleOpenChange b w) = props_options w /\
  open (handleOpenChange b w) = b /\
  searchValue (handleOpenChange b w) = searchValue w /\
  onValueChange_calls (handleOpenChange b w) = onValueChange_calls w.
Proof.
  destruct b; [now repeat split |].
  unfold handleOpenChange. simpl. destruct (searchResetTimeoutRef w);
    now repeat split.
Qed.

Lemma step_props_value (w : Widget) (e : Event) :
  (forall v, e <> PropsValue v) -> props_value (step w e) = props_value w.
Proof.
  intros He. destruct e as [o|text|key| |row|row| |options|v|dt| ]; simpl.
  - apply props_value_handleOpenChange.
  - reflexivity.
  - destruct (handleInputKeyDown_cases key w)
      as [-> | [-> | [[i ->] | [o [_ [_ ->]]]]]]; reflexivity.
  - reflexivity.
  - destruct (nth_error (filteredOptions w) row); reflexivity.
  - destruct (nth_error (filteredOptions w) row) as [o|]; [| reflexivity].
    unfold item_onMouseEnter. destruct (negb (is_disabled o)); reflexivity.
  - reflexivity.
  - reflexivity.
  - now elim (He v).
  - destruct (advance_shape dt w) as [s ->]. reflexivity.
  - apply unmount_props.
Qed.

Lemma step_props_options (w : Widget) (e : Event) :
  (forall options, e <> PropsOptions options) ->
  props_options (step w e) = props_options w.
Proof.
  intros He. destruct e as [o|text|key| |row|row| |options|v|dt| ]; simpl.
  - apply handleOpenChange_frame.
  - reflexivity.
  - destruct (handleInputKeyDown_cases key w)
      as [-> | [-> | [[i ->] | [o [_ [_ ->]]]]]]; reflexivity.
  - reflexivity.
  - destruct (nth_error (filteredOptions w) row); reflexivity.
  - destruct (nth_error (filteredOptions w) row) as [o|]; [| reflexivity].
    unfold item_onMouseEnter. destruct (negb (is_disabled o)); reflexivity.
  - reflexivity.
  - now elim (He options).
  - apply receiveValue_frame.
  - destruct (advance_shape dt w) as [s ->]. reflexivity.
  - apply unmount_props.
Qed.

(** What an event can do to the callback log. *)
Lemma step_calls (w : Widget) (e : Event) :
  onValueChange_calls (step w e) = onValueChange_calls w \/
  exists o,
    In o (filteredOptions w) /\
    onValueChange_calls (step w e) = (onValueChange_calls w ++ [value o])%list /\
    open (step w e) = false /\
    ((e = InputKeyDown "Enter" /\ is_disabled o = false) \/
     exists row, e = ItemSelect row).
Proof.
  destruct e as [o|text|key| |row|row| |options|v|dt| ]; simpl.
  - left. apply handleOpenChange_frame.
  - now left.
  - destruct (handleInputKeyDown_cases key w)
      as [-> | [-> | [[i ->] | [o [-> [Ho ->]]]]]]; try now left.
    right. exists o. apply at_index_In, enabledFilteredOptions_In in Ho.
    destruct Ho as [Hf Hd]. repeat split; [exact Hf |]. left. now split.
  - now left.
  - destruct (nth_error (filteredOptions w) row) as [o|] eqn:E; [| now left].
    right. exists o. repeat split; [eapply nth_error_In; eassumption |].
    right. now exists row.
  - left. destruct (nth_error (filteredOptions w) row) as [o|]; [| reflexivity].
    unfold item_onMouseEnter. destruct (negb (is_disabled o)); reflexivity.
  - now left.
  - now left.
  - left. apply receiveValue_frame.
  - left. destruct (advance_shape dt w) as [s ->]. reflexivity.
  - left. apply unmount_props.
Qed.

(** *** The trigger label *)

Lemma find_first {A : Type} (p : A -> bool) (pre post : list A) (x : A) :
  (forall y, In y pre -> p y = false) -> p x = true ->
  find p (pre ++ x :: post) = Some x.
Proof.
  intros Hpre Hx. induction pre as [|y pre IH]; simpl.
  - now rewrite Hx.
  - rewrite (Hpre y (or_introl eq_refl)). apply IH.
    intros z Hz. apply Hpre. now right.
Qed.

Lemma find_nothing {A : Type} (p : A -> bool) (l : list A) :
  (forall y, In y l -> p y = false) -> find p l = None.
Proof.
  intros H. induction l as [|y l IH]; simpl; [reflexivity |].
  rewrite (H y (or_introl eq_refl)). apply IH. intros z Hz. apply H. now right.
Qed.

(** X1: the trigger shows the label of the first option whose value equals
    the selected value, whether or not that option is disabled or hidden by
    the search text, and also when the value is the empty string; it shows
    the placeholder when no value is selected or no option carries it. *)
Theorem X1_trigger_label :
  forall placeholder w,
    (props_value w = None -> triggerLabel placeholder w = placeholder) /\
    (forall v, props_value w = Some v ->
       (forall o, In o (props_options w) -> value o <> v) ->
       triggerLabel placeholder w = placeholder) /\
    (forall v pre o post,
       props_value w = Some v ->
       props_options w = (pre ++ o :: post)%list ->
       value o = v ->
       (forall x, In x pre -> value x <> v) ->
       triggerLabel placeholder w = label o).
Proof.
  intros placeholder w. unfold triggerLabel, selectedOption.
  split; [| split].
  - intros ->. rewrite find_nothing; [reflexivity |]. reflexivity.
  - intros v -> Hno. rewrite find_nothing; [reflexivity |].
    intros o Ho. simpl. apply String.eqb_neq. now apply Hno.
  - intros v pre o post -> -> Hv Hpre. rewrite find_first; [reflexivity | |].
    + intros x Hx. simpl. apply String.eqb_neq. now apply Hpre.
    + simpl. now apply String.eqb_eq.
Qed.

(** X2: the widget never changes its props: no event other than the parent
    handing in a new value changes the selected value, and no event other
    than the parent handing in new options changes the options; the trigger
    label therefore stays put under every event of the widget itself. *)
Theorem X2_props_only_change_from_parent :
  forall w e,
    ((forall v, e <> PropsValue v) -> props_value (step w e) = props_value w) /\
    ((forall options, e <> PropsOptions options) ->
       props_options (step w e) = props_options w) /\
    ((forall v, e <> PropsValue v) ->
     (forall options, e <> PropsOptions options) ->
     forall placeholder,
       triggerLabel placeholder (step w e) = triggerLabel placeholder w).
Proof.
  intros w e. split; [apply step_props_value |].
  split; [apply step_props_options |].
  intros Hv Ho placeholder. unfold triggerLabel, selectedOption.
  now rewrite step_props_value, step_props_options.
Qed.

(** X3: an event calls the callback at most once; when it does, the event is
    Enter or a row's [onSelect], the reported value is the value of an option
    that is currently visible, and the widget is closed afterwards. *)
Theorem X3_callback_discipline :
  forall w e,
    onValueChange_calls (step w e) = onValueChange_calls w \/
    exists o,
      In o (filteredOptions w) /\
      onValueChange_calls (step w e) = (onValueChange_calls w ++ [value o])%list /\
      open (step w e) = false /\
      (e = InputKeyDown "Enter" \/ exists row, e = ItemSelect row).
Proof.
  intros w e. destruct (step_calls w e) as [H | [o [Hf [Hc [Ho He]]]]];
    [now left |].
  right. exists o. repeat split; try assumption.
  destruct He as [[He _] | He]; [now left | now right].
Qed.

(** X4: the keyboard never selects a disabled or hidden option: whatever key
    is pressed, either the callback is not called, or the key is Enter and
    the reported value belongs to an option that is visible and enabled. *)
Theorem X4_keyboard_reports_enabled_only :
  forall w key,
    onValueChange_calls (step w (InputKeyDown key)) = onValueChange_calls w \/
    exists o,
      key = "Enter" /\
      In o (enabledFilteredOptions w) /\
      In o (props_options w) /\
      is_disabled o = false /\
      onValueChange_calls (step w (InputKeyDown key)) =
        (onValueChange_calls w ++ [value o])%list.
Proof.
  intros w key. unfold step.
  destruct (handleInputKeyDown_cases key w)
    as [-> | [-> | [[i ->] | [o [-> [Ho ->]]]]]]; try now left.
  right. exists o. apply at_index_In in Ho.
  pose proof (proj1 (enabledFilteredOptions_In w o) Ho) as [Hf Hd].
  repeat split; try assumption. now apply filteredOptions_incl.
Qed.

Lemma run_app (w : Widget) (es1 es2 : list Event) :
  run w (es1 ++ es2) = run (run w es1) es2.
Proof. unfold run. apply fold_left_app. Qed.

(** X5: as long as the parent does not replace the options, every value ever
    reported through the callback is the value of one of the options the
    widget was given. *)
Theorem X5_reported_values_are_option_values :
  forall v options es,
    (forall e, In e es -> forall options', e <> PropsOptions options') ->
    forall x,
      In x (onValueChange_calls (run (mount v options) es)) ->
      exists o, In o options /\ value o = x.
Proof.
  intros v options es Hes.
  assert (Hinv : props_options (run (mount v options) es) = options /\
                 forall x, In x (onValueChange_calls (run (mount v options) es)) ->
                           exists o, In o options /\ value o = x).
  { assert (H0 : props_options (mount v options) = options /\
                 forall x, In x (onValueChange_calls (mount v options)) ->
                           exists o, In o options /\ value o = x).
    { split; [reflexivity | intros x []]. }
    revert H0 Hes. generalize (mount v options).
    induction es as [|e es IH]; intros w0 H0 Hes; [exact H0 |].
    simpl. apply IH.
    - destruct H0 as [Hp Hc]. split.
      + rewrite step_props_options; [exact Hp |]. apply Hes. now left.
      + intros x Hx.
        destruct (step_calls w0 e) as [E | [o [Hf [E _]]]]; rewrite E in Hx.
        * now apply Hc.
        * apply in_app_or in Hx as [Hx | [<- | []]]; [now apply Hc |].
          exists o. split; [| reflexivity].
          rewrite <- Hp. now apply filteredOptions_incl.
    - intros e' He'. apply Hes. now right. }
  apply Hinv.
Qed.

(** X6: [preventDefault] is called exactly when there is a navigable option
    and the key is ArrowDown, ArrowUp, or Enter with a non-negative
    highlight; whenever it is not called, the key press changes nothing. *)
Theorem X6_preventDefault :
  forall key w,
    fst (handleInputKeyDown key w) =
      negb (JS.length (enabledFilteredOptions w) =? 0) &&
      (String.eqb key "ArrowDown" || String.eqb key "ArrowUp" ||
       (String.eqb key "Enter" && (highlightedIndex w >=? 0))) /\
    (fst (handleInputKeyDown key w) = false ->
     snd (handleInputKeyDown key w) = w).
Proof.
  intros key w. unfold handleInputKeyDown.
  destruct (JS.length (enabledFilteredOptions w) =? 0); [now split |].
  destruct ((key =? "ArrowDown")%string || (key =? "ArrowUp")%string) eqn:Ea.
  - split; [reflexivity | discriminate].
  - destruct ((key =? "Enter")%string && (highlightedIndex w >=? 0)).
    + destruct (JS.at_index (enabledFilteredOptions w) (highlightedIndex w));
        (split; [reflexivity | discriminate]).
    + now split.
Qed.

Lemma step_open (w : Widget) (e : Event) :
  open (step w e) = open w \/
  (exists b, e = PopoverOpenChange b /\ open (step w e) = b) \/
  (open (step w e) = false /\
   (e = EscapeKey \/ e = InputKeyDown "Enter" \/ exists row, e = ItemSelect row)).
Proof.
  destruct e as [o|text|key| |row|row| |options|v|dt| ]; simpl.
  - right. left. exists o. split; [reflexivity | apply handleOpenChange_frame].
  - now left.
  - destruct (handleInputKeyDown_cases key w)
      as [-> | [-> | [[i ->] | [o [-> [Ho ->]]]]]]; try now left.
    right. right. split; [reflexivity |]. right. now left.
  - now left.
  - destruct (nth_error (filteredOptions w) row) as [o|]; [| now left].
    right. right. split; [reflexivity |]. right. right. now exists row.
  - left. destruct (nth_error (filteredOptions w) row) as [o|]; [| reflexivity].
    unfold item_onMouseEnter. destruct (negb (is_disabled o)); reflexivity.
  - right. right. split; [reflexivity |]. now left.
  - now left.
  - left. apply receiveValue_frame.
  - left. destruct (advance_shape dt w) as [s ->]. reflexivity.
  - left. apply unmount_props.
Qed.

(** X7: the widget never opens on its own: a closed widget is open after an
    event only if the event is the popover asking to open; and an open widget
    is closed after an event only if the event is the popover asking to
    close, Escape, Enter, or a row's [onSelect]. *)
Theorem X7_open_state_transitions :
  forall w e,
    (open w = false -> open (step w e) = true -> e = PopoverOpenChange true) /\
    (open w = true -> open (step w e) = false ->
       e = PopoverOpenChange false \/ e = EscapeKey \/
       e = InputKeyDown "Enter" \/ exists row, e = ItemSelect row).
Proof.
  intros w e. destruct (step_open w e) as [H | [[b [-> H]] | [H He]]]; split;
    intros H1 H2; try congruence.
  - left. congruence.
  - right. exact He.
Qed.


(** *** Sequences of key presses *)

Lemma setHighlightedIndex_self (w : Widget) :
  setHighlightedIndex (highlightedIndex w) w = w.
Proof. destruct w; reflexivity. Qed.

Lemma step_ArrowDown_in_range (w : Widget) :
  0 <= highlightedIndex w < JS.length (enabledFilteredOptions w) ->
  step w (InputKeyDown "ArrowDown") =
  setHighlightedIndex
    ((highlightedIndex w + 1) mod JS.length (enabledFilteredOptions w)) w.
Proof.
  intros Hr. unfold step.
  rewrite handleInputKeyDown_ArrowDown by lia.
  destruct (Z.eqb_spec (highlightedIndex w) (-1)); [lia | reflexivity].
Qed.

Lemma step_ArrowUp_in_range (w : Widget) :
  0 <= highlightedIndex w < JS.length (enabledFilteredOptions w) ->
  step w (InputKeyDown "ArrowUp") =
  setHighlightedIndex
    ((highlightedIndex w - 1) mod JS.length (enabledFilteredOptions w)) w.
Proof.
  intros Hr. unfold step.
  rewrite handleInputKeyDown_ArrowUp by lia.
  destruct (Z.eqb_spec (highlightedIndex w) (-1)); [lia |].
  cbn [snd]. f_equal.
  rewrite <- (Z.mul_1_l (JS.length (enabledFilteredOptions w))) at 1.
  apply Z_mod_plus_full.
Qed.

(** X8: with the highlight on a navigable option, ArrowDown and ArrowUp undo
    each other: pressing one and then the other gives back the very state the
    widget was in. *)
Theorem X8_arrows_are_inverse :
  forall w,
    0 <= highlightedIndex w < JS.length (enabledFilteredOptions w) ->
    run w [InputKeyDown "ArrowDown"; InputKeyDown "ArrowUp"] = w /\
    run w [InputKeyDown "ArrowUp"; InputKeyDown "ArrowDown"] = w.
Proof.
  intros w Hr. set (n := JS.length (enabledFilteredOptions w)) in *.
  assert (Hn : 0 < n) by lia.
  unfold run. cbn [fold_left]. split.
  - rewrite (step_ArrowDown_in_range w Hr). fold n.
    pose proof (Z.mod_pos_bound (highlightedIndex w + 1) n Hn) as Hb.
    rewrite step_ArrowUp_in_range by exact Hb.
    cbn [highlightedIndex setHighlightedIndex].
    change (enabledFilteredOptions (setHighlightedIndex _ w))
      with (enabledFilteredOptions w). fold n.
    rewrite Zminus_mod_idemp_l.
    replace (highlightedIndex w + 1 - 1) with (highlightedIndex w) by lia.
    rewrite Z.mod_small by lia.
    change (setHighlightedIndex (highlightedIndex w) w = w).
    apply setHighlightedIndex_self.
  - rewrite (step_ArrowUp_in_range w Hr). fold n.
    pose proof (Z.mod_pos_bound (highlightedIndex w - 1) n Hn) as Hb.
    rewrite step_ArrowDown_in_range by exact Hb.
    cbn [highlightedIndex setHighlightedIndex].
    change (enabledFilteredOptions (setHighlightedIndex _ w))
      with (enabledFilteredOptions w). fold n.
    rewrite Zplus_mod_idemp_l.
    replace (highlightedIndex w - 1 + 1) with (highlightedIndex w) by lia.
    rewrite Z.mod_small by lia.
    change (setHighlightedIndex (highlightedIndex w) w = w).
    apply setHighlightedIndex_self.
Qed.

Lemma run_ArrowDown_repeat (k : nat) (w : Widget) :
  0 <= highlightedIndex w < JS.length (enabledFilteredOptions w) ->
  run w (repeat (InputKeyDown "ArrowDown") k) =
  setHighlightedIndex
    ((highlightedIndex w + Z.of_nat k) mod JS.length (enabledFilteredOptions w)) w.
Proof.
  revert w. induction k as [|k IH]; intros w Hr.
  - simpl. rewrite Z.add_0_r, Z.mod_small by exact Hr.
    symmetry. apply setHighlightedIndex_self.
  - assert (Hn : 0 < JS.length (enabledFilteredOptions w)) by lia.
    change (run (step w (InputKeyDown "ArrowDown"))
              (repeat (InputKeyDown "ArrowDown") k) = 
            setHighlightedIndex
              ((highlightedIndex w + Z.of_nat (S k))
               mod JS.length (enabledFilteredOptions w)) w).
    rewrite (step_ArrowDown_in_range w Hr).
    rewrite IH.
    + cbn [highlightedIndex setHighlightedIndex].
      change (enabledFilteredOptions (setHighlightedIndex _ w))
        with (enabledFilteredOptions w).
      rewrite Zplus_mod_idemp_l.
      replace (highlightedIndex w + 1 + Z.of_nat k)
        with (highlightedIndex w + Z.of_nat (S k)) by lia.
      reflexivity.
    + cbn [highlightedIndex setHighlightedIndex].
      change (enabledFilteredOptions (setHighlightedIndex _ w))
        with (enabledFilteredOptions w).
      apply Z.mod_pos_bound. exact Hn.
Qed.

Lemma run_ArrowUp_repeat (k : nat) (w : Widget) :
  0 <= highlightedIndex w < JS.length (enabledFilteredOptions w) ->
  run w (repeat (InputKeyDown "ArrowUp") k) =
  setHighlightedIndex
    ((highlightedIndex w - Z.of_nat k) mod JS.length (enabledFilteredOptions w)) w.
Proof.
  revert w. induction k as [|k IH]; intros w Hr.
  - simpl. rewrite Z.sub_0_r, Z.mod_small by exact Hr.
    symmetry. apply setHighlightedIndex_self.
  - assert (Hn : 0 < JS.length (enabledFilteredOptions w)) by lia.
    change (run (step w (InputKeyDown "ArrowUp"))
              (repeat (InputKeyDown "ArrowUp") k) = 
            setHighlightedIndex
              ((highlightedIndex w - Z.of_nat (S k))
               mod JS.length (enabledFilteredOptions w)) w).
    rewrite (step_ArrowUp_in_range w Hr).
    rewrite IH.
    + cbn [highlightedIndex setHighlightedIndex].
      change (enabledFilteredOptions (setHighlightedIndex _ w))
        with (enabledFilteredOptions w).
      rewrite Zminus_mod_idemp_l.
      replace (highlightedIndex w - 1 - Z.of_nat k)
        with (highlightedIndex w - Z.of_nat (S k)) by lia.
      reflexivity.
    + cbn [highlightedIndex setHighlightedIndex].
      change (enabledFilteredOptions (setHighlightedIndex _ w))
        with (enabledFilteredOptions w).
      apply Z.mod_pos_bound. exact Hn.
Qed.

(** X9: with the highlight on a navigable option, k presses of ArrowDown move
    it to (current + k) mod N and k presses of ArrowUp to (current - k) mod N,
    changing nothing else.  So N presses of either key come back to the
    start, and every navigable option can be reached with ArrowDown alone. *)
Theorem X9_arrow_cycle :
  forall w,
    let n := JS.length (enabledFilteredOptions w) in
    0 <= highlightedIndex w < n ->
    (forall k,
       run w (repeat (InputKeyDown "ArrowDown") k) =
         setHighlightedIndex ((highlightedIndex w + Z.of_nat k) mod n) w /\
       run w (repeat (InputKeyDown "ArrowUp") k) =
         setHighlightedIndex ((highlightedIndex w - Z.of_nat k) mod n) w) /\
    run w (repeat (InputKeyDown "ArrowDown") (Z.to_nat n)) = w /\
    run w (repeat (InputKeyDown "ArrowUp") (Z.to_nat n)) = w /\
    (forall j, 0 <= j < n ->
       exists k, (k < Z.to_nat n)%nat /\
         highlightedIndex (run w (repeat (InputKeyDown "ArrowDown") k)) = j).
Proof.
  intros w n Hr. subst n.
  set (n := JS.length (enabledFilteredOptions w)) in *.
  split; [| split; [| split]].
  - intros k. split; [now apply run_ArrowDown_repeat | now apply run_ArrowUp_repeat].
  - rewrite run_ArrowDown_repeat by exact Hr. fold n.
    rewrite Z2Nat.id by lia.
    rewrite <- (Z.mul_1_l n) at 1. rewrite Z_mod_plus_full.
    rewrite Z.mod_small by exact Hr. apply setHighlightedIndex_self.
  - rewrite run_ArrowUp_repeat by exact Hr. fold n.
    rewrite Z2Nat.id by lia.
    replace (highlightedIndex w - n) with (highlightedIndex w + (-1) * n) by lia.
    rewrite Z_mod_plus_full.
    rewrite Z.mod_small by exact Hr. apply setHighlightedIndex_self.
  - intros j Hj. exists (Z.to_nat ((j - highlightedIndex w) mod n)).
    assert (Hn : 0 < n) by lia.
    pose proof (Z.mod_pos_bound (j - highlightedIndex w) n Hn) as Hb.
    split; [lia |].
    rewrite run_ArrowDown_repeat by exact Hr. fold n.
    cbn [highlightedIndex setHighlightedIndex].
    rewrite Z2Nat.id by lia.
    rewrite Zplus_mod_idemp_r.
    replace (highlightedIndex w + (j - highlightedIndex w)) with j by lia.
    apply Z.mod_small. exact Hj.
Qed.

(** *** An event followed by Enter *)

Lemma step_Enter_at (w : Widget) (o : SearchableSelectOption) :
  JS.at_index (enabledFilteredOptions w) (highlightedIndex w) = Some o ->
  step w (InputKeyDown "Enter") = onValueChange (value o) (setOpen false w).
Proof.
  intros H. unfold step. now rewrite (handleInputKeyDown_Enter_in_range w o H).
Qed.

(** X10: moving the pointer onto a visible enabled row and pressing Enter
    selects that row: the callback is called once with the row's value and
    the widget closes. *)
Theorem X10_hover_then_enter :
  forall w row o,
    nth_error (filteredOptions w) row = Some o ->
    is_disabled o = false ->
    let w' := run w [ItemMouseEnter row; InputKeyDown "Enter"] in
    onValueChange_calls w' = (onValueChange_calls w ++ [value o])%list /\
    open w' = false.
Proof.
  intros w row o Hrow Hd. unfold run. cbn [fold_left].
  assert (Hs : step w (ItemMouseEnter row) =
               setHighlightedIndex (enabledOptionIndex o w) w).
  { unfold step. rewrite Hrow. unfold item_onMouseEnter. now rewrite Hd. }
  rewrite Hs.
  assert (Hex : existsb (fun e => (value e =? value o)%string)
                  (enabledFilteredOptions w) = true).
  { apply existsb_exists. exists o. split; [| apply String.eqb_refl].
    apply enabledFilteredOptions_In. split; [| exact Hd].
    eapply nth_error_In; eassumption. }
  destruct (findIndex_found _ _ Hex) as [_ [o' [Ho' Hv]]].
  apply String.eqb_eq in Hv.
  rewrite (step_Enter_at (setHighlightedIndex (enabledOptionIndex o w) w) o').
  - cbn. rewrite Hv. now split.
  - exact Ho'.
Qed.

(** X11: typing a search text and pressing Enter selects the first enabled
    option that matches the text; when no enabled option matches, Enter does
    nothing. *)
Theorem X11_search_then_enter :
  forall w text,
    let w1 := step w (InputValueChange text) in
    let w2 := run w [InputValueChange text; InputKeyDown "Enter"] in
    enabledFilteredOptions w1 = enabledOf (filterOptions (props_options w) text) /\
    (forall o rest,
       enabledFilteredOptions w1 = o :: rest ->
       onValueChange_calls w2 = (onValueChange_calls w ++ [value o])%list /\
       open w2 = false) /\
    (enabledFilteredOptions w1 = [] -> w2 = w1).
Proof.
  intros w text w1 w2. subst w1 w2. unfold run. cbn [fold_left].
  split; [reflexivity |]. split.
  - intros o rest E.
    rewrite (step_Enter_at (step w (InputValueChange text)) o).
    + now split.
    + rewrite E. reflexivity.
  - intros E. unfold step at 1.
    rewrite handleInputKeyDown_no_options; [reflexivity |].
    now rewrite E.
Qed.

(** X12: opening the popover and pressing Enter re-confirms the current
    selection when it is a non-empty value carried by a navigable option;
    otherwise it selects the first navigable option; with no navigable option
    Enter does nothing. *)
Theorem X12_open_then_enter :
  forall w,
    let w1 := step w (PopoverOpenChange true) in
    let w2 := run w [PopoverOpenChange true; InputKeyDown "Enter"] in
    (forall v o,
       props_value w = Some v -> v <> "" ->
       In o (enabledFilteredOptions w) -> value o = v ->
       onValueChange_calls w2 = (onValueChange_calls w ++ [v])%list /\
       open w2 = false) /\
    (forall o rest,
       enabledFilteredOptions w = o :: rest ->
       (JS.truthy_opt (props_value w) = false \/
        forall v, props_value w = Some v ->
                  forall o', In o' (enabledFilteredOptions w) -> value o' <> v) ->
       onValueChange_calls w2 = (onValueChange_calls w ++ [value o])%list /\
       open w2 = false) /\
    (enabledFilteredOptions w = [] -> w2 = w1).
Proof.
  intros w w1 w2. subst w1 w2. unfold run. cbn [fold_left].
  assert (Hhi : highlightedIndex (step w (PopoverOpenChange true)) =
                three_tier_rule (enabledFilteredOptions w)
                  (truthy_selection (props_value w))).
  { apply getDefaultHighlightedIndex_three_tier. }
  assert (Hen : enabledFilteredOptions (step w (PopoverOpenChange true)) =
                enabledFilteredOptions w) by reflexivity.
  split; [| split].
  - intros v o Hv Hne Hin Hval.
    assert (Hex : existsb (fun e => (value e =? v)%string)
                    (enabledFilteredOptions w) = true).
    { apply existsb_exists. exists o. split; [exact Hin |]. now apply String.eqb_eq. }
    destruct (findIndex_found _ _ Hex) as [_ [o' [Ho' Hv']]].
    apply String.eqb_eq in Hv'.
    rewrite (step_Enter_at (step w (PopoverOpenChange true)) o').
    + cbn. rewrite Hv'. now split.
    + rewrite Hhi, Hen. unfold three_tier_rule, truthy_selection.
      rewrite Hv. cbn [JS.truthy_opt]. unfold JS.truthy.
      destruct (String.eqb_spec v ""); [contradiction |]. cbn [negb].
      destruct (enabledFilteredOptions w) as [|e l]; [destruct Hin |].
      rewrite Hex. exact Ho'.
  - intros o rest E Hno.
    rewrite (step_Enter_at (step w (PopoverOpenChange true)) o).
    + now split.
    + rewrite Hhi, Hen, E. unfold three_tier_rule, truthy_selection.
      destruct Hno as [Hf | Hno].
      * rewrite Hf. reflexivity.
      * destruct (JS.truthy_opt (props_value w)); [| reflexivity].
        destruct (props_value w) as [v|]; [| reflexivity].
        replace (existsb (fun o0 => (value o0 =? v)%string) (o :: rest))
          with false; [reflexivity |].
        symmetry. apply not_true_is_false. intros Hex.
        apply existsb_exists in Hex as [o' [Hin' Hv']].
        apply String.eqb_eq in Hv'. rewrite <- E in Hin'.
        exact (Hno v eq_refl o' Hin' Hv').
  - intros E. unfold step at 1.
    rewrite handleInputKeyDown_no_options; [reflexivity |].
    rewrite Hen. now rewrite E.
Qed.

(** X13: ArrowDown followed by Enter always selects when there is a navigable
    option: the option reported is the one after the highlighted one,
    wrapping around, where a highlight of -1 counts as index 0 (this is what
    the component's tests exercise from the freshly mounted state). *)
Theorem X13_arrow_down_then_enter :
  forall w,
    let n := JS.length (enabledFilteredOptions w) in
    let safeIndex := if highlightedIndex w =? -1 then 0 else highlightedIndex w in
    0 < n -> -1 <= highlightedIndex w ->
    let w' := run w [InputKeyDown "ArrowDown"; InputKeyDown "Enter"] in
    exists o,
      JS.at_index (enabledFilteredOptions w) ((safeIndex + 1) mod n) = Some o /\
      onValueChange_calls w' = (onValueChange_calls w ++ [value o])%list /\
      open w' = false.
Proof.
  intros w n safeIndex Hn Hh. unfold run. cbn [fold_left].
  destruct (at_index_in_range (enabledFilteredOptions w) ((safeIndex + 1) mod n))
    as [o [Ho _]]; [apply Z.mod_pos_bound; exact Hn |].
  exists o. split; [exact Ho |].
  assert (Hd : step w (InputKeyDown "ArrowDown") =
               setHighlightedIndex ((safeIndex + 1) mod n) w).
  { unfold step. now rewrite (handleInputKeyDown_ArrowDown w Hn Hh). }
  rewrite Hd.
  rewrite (step_Enter_at (setHighlightedIndex ((safeIndex + 1) mod n) w) o Ho).
  split; reflexivity.
Qed.


(** *** More on the two filter stages *)

Lemma string_append_assoc (a b c : string) :
  ((a ++ b) ++ c = a ++ (b ++ c))%string.
Proof. induction a as [|x a IH]; simpl; [reflexivity | now rewrite IH]. Qed.

Lemma includes_trans (a b c : string) :
  JS.includes a b = true -> JS.includes b c = true -> JS.includes a c = true.
Proof.
  rewrite !includes_spec. intros [p [q ->]] [p' [q' ->]].
  exists (p ++ p')%string, (q' ++ q)%string.
  now rewrite !string_append_assoc.
Qed.

Lemma Subsequence_filter {A : Type} (p : A -> bool) (l1 l2 : list A) :
  Subsequence l1 l2 -> Subsequence (filter p l1) (filter p l2).
Proof.
  induction 1 as [|x l1 l2 H IH|x l1 l2 H IH]; simpl.
  - constructor.
  - destruct (p x); [now constructor | exact IH].
  - destruct (p x); [now constructor | exact IH].
Qed.

Lemma Subsequence_length {A : Type} (l1 l2 : list A) :
  Subsequence l1 l2 -> (List.length l1 <= List.length l2)%nat.
Proof. induction 1; simpl; lia. Qed.

Lemma filter_Subsequence_impl {A : Type} (p q : A -> bool) (l : list A) :
  (forall x, In x l -> p x = true -> q x = true) ->
  Subsequence (filter p l) (filter q l).
Proof.
  induction l as [|x l IH]; intros H; simpl; [constructor |].
  assert (IH' : Subsequence (filter p l) (filter q l)).
  { apply IH. intros y Hy. apply H. now right. }
  destruct (p x) eqn:Hp.
  - rewrite (H x (or_introl eq_refl) Hp). now constructor.
  - destruct (q x); [now constructor | exact IH'].
Qed.

Lemma filter_comm {A : Type} (p q : A -> bool) (l : list A) :
  filter p (filter q l) = filter q (filter p l).
Proof.
  induction l as [|x l IH]; simpl; [reflexivity |].
  destruct (q x) eqn:Hq, (p x) eqn:Hp; simpl; rewrite ?Hq, ?Hp, IH; reflexivity.
Qed.

Lemma filterOptions_Subsequence (options : list SearchableSelectOption)
  (search : string) :
  Subsequence (filterOptions options search) options.
Proof.
  unfold filterOptions. destruct (negb (JS.truthy search)).
  - apply Subsequence_refl.
  - apply filter_Subsequence.
Qed.

(** X14: the clear icon empties the search text, asks for the focus once and
    shows every option again; it leaves the highlight, the open state, the
    callback log and the pending timers alone.  The visible and the navigable
    lists can only grow, so a highlight that was a valid index is still
    one. *)
Theorem X14_clear_search :
  forall w,
    let w' := step w ClearSearchClick in
    searchValue w' = "" /\
    filteredOptions w' = props_options w /\
    focus_calls w' = S (focus_calls w) /\
    highlightedIndex w' = highlightedIndex w /\
    open w' = open w /\
    onValueChange_calls w' = onValueChange_calls w /\
    timers w' = timers w /\
    Subsequence (filteredOptions w) (filteredOptions w') /\
    Subsequence (enabledFilteredOptions w) (enabledFilteredOptions w') /\
    (0 <= highlightedIndex w < JS.length (enabledFilteredOptions w) ->
     0 <= highlightedIndex w' < JS.length (enabledFilteredOptions w')).
Proof.
  intros w w'. subst w'.
  assert (Hf : Subsequence (filteredOptions w)
                 (filteredOptions (step w ClearSearchClick))).
  { apply filterOptions_Subsequence. }
  assert (He : Subsequence (enabledFilteredOptions w)
                 (enabledFilteredOptions (step w ClearSearchClick))).
  { apply Subsequence_filter. exact Hf. }
  do 7 (split; [reflexivity |]).
  split; [exact Hf |]. split; [exact He |].
  intros Hr. apply Subsequence_length in He. unfold JS.length in *.
  change (highlightedIndex (step w ClearSearchClick)) with (highlightedIndex w).
  lia.
Qed.

(** X15: narrowing the search narrows the lists: if the lower-cased new
    search text contains the lower-cased old one, the options visible for the
    new text are a subsequence of those visible for the old text, and so are
    the navigable ones. *)
Theorem X15_longer_search_narrows :
  forall options s s',
    s' <> "" ->
    JS.includes (toLowerCase s') (toLowerCase s) = true ->
    Subsequence (filterOptions options s') (filterOptions options s) /\
    Subsequence (enabledOf (filterOptions options s'))
      (enabledOf (filterOptions options s)).
Proof.
  intros options s s' Hne Hinc.
  assert (H : Subsequence (filterOptions options s') (filterOptions options s)).
  { rewrite (filterOptions_nonempty options s' Hne).
    destruct (string_dec s "") as [-> | Hs].
    - rewrite filterOptions_empty. apply filter_Subsequence.
    - rewrite (filterOptions_nonempty options s Hs).
      apply filter_Subsequence_impl. intros o _ Ho.
      unfold contains_ci in *. eapply includes_trans; eassumption. }
  split; [exact H |]. unfold enabledOf. now apply Subsequence_filter.
Qed.

(** X16: the two filter stages commute: dropping the disabled options first
    and filtering by the search text afterwards gives the same navigable list
    as the component's order. *)
Theorem X16_filter_stages_commute :
  forall options search,
    enabledOf (filterOptions options search) =
    filterOptions (enabledOf options) search.
Proof.
  intros options search. unfold enabledOf, filterOptions.
  destruct (negb (JS.truthy search)); [reflexivity |]. apply filter_comm.
Qed.

(** X17: when every option is disabled nothing is navigable, whatever the
    search text: opening sets the highlight to -1, no key does anything or
    has its default prevented, and the pointer entering a row changes
    nothing. *)
Theorem X17_all_disabled_is_inert :
  forall w,
    (forall o, In o (props_options w) -> is_disabled o = true) ->
    enabledFilteredOptions w = [] /\
    highlightedIndex (step w (PopoverOpenChange true)) = -1 /\
    (forall key, handleInputKeyDown key w = (false, w)) /\
    (forall row, step w (ItemMouseEnter row) = w).
Proof.
  intros w Hall.
  assert (He : enabledFilteredOptions w = []).
  { unfold enabledFilteredOptions, enabledOf. apply filter_none.
    intros o Ho. apply filteredOptions_incl in Ho. now rewrite (Hall o Ho). }
  split; [exact He |]. split; [| split].
  - simpl. unfold getDefaultHighlightedIndex. now rewrite He.
  - intros key. apply handleInputKeyDown_no_options. now rewrite He.
  - intros row. unfold step.
    destruct (nth_error (filteredOptions w) row) as [o|] eqn:E; [| reflexivity].
    unfold item_onMouseEnter.
    rewrite (Hall o (filteredOptions_incl w o (nth_error_In _ _ E))).
    reflexivity.
Qed.

(** *** Which row is drawn highlighted *)

(** Filtering options whose values are all different keeps them so. *)
Lemma distinct_values_filter (keep : SearchableSelectOption -> bool)
  (options : list SearchableSelectOption) :
  NoDup (map value options) -> NoDup (map value (filter keep options)).
Proof.
  induction options as [|o options IH]; simpl; intros Hnd; [constructor |].
  inversion Hnd as [|v vs Hfresh Hrest]; subst.
  destruct (keep o); [| now apply IH]. simpl. constructor; [| now apply IH].
  intros Hin. apply Hfresh. apply in_map_iff in Hin as [o' [Hv Hin]].
  apply in_map_iff. exists o'. split; [exact Hv |].
  now apply filter_In in Hin.
Qed.

Lemma findIndex_from_unique (l : list SearchableSelectOption) (i : nat)
  (o : SearchableSelectOption) (k : Z) :
  NoDup (map value l) -> nth_error l i = Some o ->
  JS.findIndex_from (fun e => (value e =? value o)%string) l k = k + Z.of_nat i.
Proof.
  revert i k. induction l as [|x l IH]; intros i k Hnd Hi.
  - destruct i; discriminate.
  - simpl in Hnd. inversion Hnd as [|y ys Hnot Hnd']; subst.
    destruct i as [|i]; simpl in Hi.
    + injection Hi as ->. simpl. rewrite String.eqb_refl. lia.
    + simpl. destruct (String.eqb_spec (value x) (value o)) as [E | _].
      * exfalso. apply Hnot. rewrite E. apply in_map.
        eapply nth_error_In; eassumption.
      * rewrite (IH i (k + 1) Hnd' Hi). lia.
Qed.

(** X18: a visible row that is drawn highlighted is enabled and carries the
    value of the navigable option at the highlight index; a disabled row is
    never drawn highlighted; and when the options' values are all different,
    the navigable option at the highlight index is drawn highlighted. *)
Theorem X18_highlighted_row :
  forall w o,
    (In o (filteredOptions w) -> isHighlighted toLowerCase o w = true ->
       is_disabled o = false /\
       exists o',
         JS.at_index (enabledFilteredOptions w) (highlightedIndex w) = Some o' /\
         value o' = value o) /\
    (is_disabled o = true -> isHighlighted toLowerCase o w = false) /\
    (NoDup (map value (props_options w)) ->
     JS.at_index (enabledFilteredOptions w) (highlightedIndex w) = Some o ->
     isHighlighted toLowerCase o w = true).
Proof.
  intros w o. unfold isHighlighted. split; [| split].
  - intros Hin H. apply andb_true_iff in H as [Hi Hd].
    apply negb_true_iff in Hd. split; [exact Hd |].
    apply Z.eqb_eq in Hi. rewrite <- Hi. unfold enabledOptionIndex.
    assert (Hex : existsb (fun e => (value e =? value o)%string)
                    (enabledFilteredOptions w) = true).
    { apply existsb_exists. exists o. split; [| apply String.eqb_refl].
      now apply enabledFilteredOptions_In. }
    destruct (findIndex_found _ _ Hex) as [_ [o' [Ho' Hv]]].
    exists o'. split; [exact Ho' | now apply String.eqb_eq].
  - intros ->. apply andb_false_r.
  - intros Hnd Hat.
    pose proof (at_index_Some_range _ _ _ Hat) as Hr.
    pose proof (at_index_In _ _ _ Hat) as Hin.
    apply enabledFilteredOptions_In in Hin as [_ Hd]. rewrite Hd.
    rewrite andb_true_r. apply Z.eqb_eq.
    unfold enabledOptionIndex, JS.findIndex.
    unfold JS.at_index in Hat.
    destruct (Z.ltb_spec (highlightedIndex w) 0); [lia |].
    rewrite (findIndex_from_unique _ (Z.to_nat (highlightedIndex w)) o 0).
    + lia.
    + unfold enabledFilteredOptions, enabledOf, filteredOptions, filterOptions.
      apply distinct_values_filter.
      destruct (negb (JS.truthy (searchValue w))); [exact Hnd |].
      now apply distinct_values_filter.
    + exact Hat.
Qed.


(** *** More on the pending resets *)

Lemma handleOpenChange_close_now (w : Widget) :
  now (handleOpenChange false w) = now w.
Proof.
  unfold handleOpenChange. simpl. destruct (searchResetTimeoutRef w); reflexivity.
Qed.

Lemma receiveValue_now (v : option string) (w : Widget) :
  now (receiveValue v w) = now w.
Proof.
  unfold receiveValue. destruct (JS.opt_string_eqb v (props_value w)); reflexivity.
Qed.

Lemma Subsequence_trans {A : Type} (a b c : list A) :
  Subsequence a b -> Subsequence b c -> Subsequence a c.
Proof.
  intros Hab Hbc. revert a Hab.
  induction Hbc as [|x b c Hbc IH|x b c Hbc IH]; intros a Hab.
  - exact Hab.
  - constructor. now apply IH.
  - inversion Hab; subst; constructor; now apply IH.
Qed.

Lemma unmount_timers (w : Widget) :
  Subsequence (timers (unmount w)) (timers w) /\ now (unmount w) = now w.
Proof.
  destruct w as [pv po op sv hi [r|] im vid nw ts nx calls fc];
    unfold unmount; simpl; split; try reflexivity.
  - eapply Subsequence_trans; apply filter_Subsequence.
  - apply filter_Subsequence.
Qed.

Lemma Subsequence_count {A : Type} (p : A -> bool) (l1 l2 : list A) :
  Subsequence l1 l2 ->
  (List.length (filter p l1) <= List.length (filter p l2))%nat.
Proof.
  intros H. apply Subsequence_length. now apply Subsequence_filter.
Qed.

Lemma timers_split_by_callback (l : list Timer) :
  List.length l =
  (List.length (filter is_close_reset l) + List.length (filter is_value_reset l))%nat.
Proof.
  induction l as [|t l IH]; simpl; [reflexivity |].
  unfold is_close_reset at 1, is_value_reset at 1.
  destruct (timer_callback t); simpl; lia.
Qed.

(** What an event does to the timer queue and the clock. *)
Lemma step_timers (w : Widget) (e : Event) :
  (timers (step w e) = timers w /\ now (step w e) = now w) \/
  (e = PopoverOpenChange false) \/
  (exists v, e = PropsValue v /\ JS.opt_string_eqb v (props_value w) = false) \/
  (exists dt, e = TimePasses dt) \/
  e = Unmount.
Proof.
  destruct e as [o|text|key| |row|row| |options|v|dt| ]; simpl.
  - destruct o; [now left | now right; left].
  - now left.
  - left. destruct (handleInputKeyDown_cases key w)
      as [-> | [-> | [[i ->] | [o [_ [_ ->]]]]]]; now split.
  - now left.
  - left. destruct (nth_error (filteredOptions w) row); now split.
  - left. destruct (nth_error (filteredOptions w) row) as [o|]; [| now split].
    unfold item_onMouseEnter. destruct (negb (is_disabled o)); now split.
  - now left.
  - now left.
  - destruct (JS.opt_string_eqb v (props_value w)) eqn:E.
    + left. unfold receiveValue. rewrite E. now split.
    + right. right. left. now exists v.
  - right. right. right. left. now exists dt.
  - now repeat right.
Qed.

Lemma step_timers_due_soon (w : Widget) (e : Event) :
  timers_due_soon w -> timers_due_soon (step w e).
Proof.
  intros Hd.
  destruct (step_timers w e) as [[Et En] | [-> | [[v [-> Hv]] | [[dt ->] | ->]]]].
  - intros t Hin. rewrite Et in Hin. rewrite En. now apply Hd.
  - intros t Hin. unfold step in *. rewrite handleOpenChange_close_now.
    destruct (timers_handleOpenChange_close w) as [Ets _]. rewrite Ets in Hin.
    apply in_app_or in Hin as [Hin | [<- | []]]; [| simpl; lia].
    apply Hd. destruct (searchResetTimeoutRef w); [now apply filter_In in Hin | exact Hin].
  - intros t Hin. unfold step in *. rewrite receiveValue_now.
    destruct (timers_receiveValue_changed v w Hv) as [Ets _]. rewrite Ets in Hin.
    apply in_app_or in Hin as [Hin | [<- | []]]; [| simpl; lia].
    apply Hd. now apply filter_In in Hin.
  - intros t Hin. unfold step in *. destruct (advance_shape dt w) as [s Hs].
    rewrite Hs in *. simpl in *. apply filter_In in Hin as [Hin Hlate].
    apply negb_true_iff, Nat.leb_gt in Hlate. specialize (Hd t Hin). lia.
  - intros t Hin. unfold step in *. destruct (unmount_timers w) as [Hs Hn].
    rewrite Hn. apply Hd. eapply Subsequence_In; eassumption.
Qed.

Lemma step_timer_counts (w : Widget) (e : Event) :
  timers_tracked w ->
  (List.length (filter is_close_reset (timers w)) <= 1)%nat ->
  (List.length (filter is_value_reset (timers w)) <= 1)%nat ->
  (List.length (filter is_close_reset (timers (step w e))) <= 1)%nat /\
  (List.length (filter is_value_reset (timers (step w e))) <= 1)%nat.
Proof.
  intros Ht Hc Hv.
  destruct (step_timers w e) as [[Et En] | [-> | [[v [-> Hne]] | [[dt ->] | ->]]]].
  - rewrite Et. now split.
  - unfold step. destruct (timers_handleOpenChange_close w) as [-> _].
    rewrite !filter_app, (close_resets_cleared w Ht). simpl. split; [lia |].
    rewrite app_nil_r. etransitivity; [| exact Hv].
    destruct (searchResetTimeoutRef w); [| lia].
    apply Subsequence_count, filter_Subsequence.
  - unfold step. destruct (timers_receiveValue_changed v w Hne) as [-> _].
    rewrite !filter_app, (value_resets_cleared w Ht). simpl. split; [| lia].
    rewrite app_nil_r. etransitivity; [| exact Hc].
    apply Subsequence_count, filter_Subsequence.
  - unfold step. destruct (advance_shape dt w) as [s ->]. simpl.
    split; (etransitivity; [apply Subsequence_count, filter_Subsequence |]);
      assumption.
  - unfold step. destruct (unmount_timers w) as [Hs _].
    split; (etransitivity; [apply Subsequence_count; exact Hs |]); assumption.
Qed.

(** X19: in every reachable state at most one close reset and at most one
    value reset are pending (so at most two timers in all), each due later
    than now and at most 100ms from now; after 100 idle milliseconds no
    timer is left. *)
Theorem X19_pending_timers :
  forall w,
    reachable w ->
    timers_due_soon w /\
    (List.length (filter is_close_reset (timers w)) <= 1)%nat /\
    (List.length (filter is_value_reset (timers w)) <= 1)%nat /\
    (List.length (timers w) <= 2)%nat /\
    timers (step w (TimePasses 100)) = [].
Proof.
  intros w Hr. pose proof (reachable_timers_tracked w Hr) as Ht.
  assert (Hinv : timers_due_soon w /\
                 (List.length (filter is_close_reset (timers w)) <= 1)%nat /\
                 (List.length (filter is_value_reset (timers w)) <= 1)%nat).
  { clear Ht. destruct Hr as [v [options [es ->]]].
    assert (H0 : timers_tracked (mount v options) /\
                 timers_due_soon (mount v options) /\
                 (List.length (filter is_close_reset (timers (mount v options))) <= 1)%nat /\
                 (List.length (filter is_value_reset (timers (mount v options))) <= 1)%nat).
    { split; [intros t [<- | []]; reflexivity |].
      split; [intros t [<- | []]; simpl; lia |]. simpl. lia. }
    revert H0. generalize (mount v options).
    induction es as [|e es IH]; intros w0 H0; [apply H0 |].
    simpl. apply IH. destruct H0 as [Ht [Hd [Hc Hv]]].
    split; [now apply step_timers_tracked |].
    split; [now apply step_timers_due_soon |].
    now apply step_timer_counts. }
  destruct Hinv as [Hd [Hc Hv]].
  split; [exact Hd |]. split; [exact Hc |]. split; [exact Hv |]. split.
  - rewrite timers_split_by_callback. lia.
  - unfold step. destruct (advance_shape 100 w) as [s ->]. simpl.
    apply filter_none. intros t Hin. apply negb_false_iff, Nat.leb_le.
    specialize (Hd t Hin). lia.
Qed.

Lemma runTimerCallbacks_mounted (l : list Timer) (w : Widget) :
  isMountedRef w = true -> l <> [] ->
  searchValue
    (fold_left (fun acc tm => runTimerCallback (timer_callback tm) acc) l w) = "".
Proof.
  intros Hm Hl. destruct l as [|tm l]; [contradiction |]. simpl.
  apply runTimerCallbacks_keep_empty. unfold runTimerCallback.
  rewrite Hm. destruct (timer_callback tm); reflexivity.
Qed.

Lemma opt_string_eqb_refl (v : option string) : JS.opt_string_eqb v v = true.
Proof. destruct v; simpl; [apply String.eqb_refl | reflexivity]. Qed.

(** A change of value that is followed by 100 idle milliseconds empties the
    search text of a mounted instance. *)
Lemma value_change_then_wait_resets (w : Widget) (v : option string) :
  isMountedRef w = true ->
  JS.opt_string_eqb v (props_value w) = false ->
  searchValue (advance 100 (receiveValue v w)) = "".
Proof.
  intros Hm Hne. unfold advance. apply runTimerCallbacks_mounted.
  - unfold receiveValue. rewrite Hne. exact Hm.
  - intros Hnil.
    assert (Hin : In (mkTimer (nextTimerId w) (now w + 100) ValueResetCallback)
                    (filter
                       (fun tm => (timer_due tm <=? now (receiveValue v w) + 100)%nat)
                       (timers (receiveValue v w)))).
    { apply filter_In. split.
      - destruct (timers_receiveValue_changed v w Hne) as [-> _].
        apply in_or_app. right. now left.
      - rewrite receiveValue_now. cbn [timer_due]. apply Nat.leb_le. lia. }
    rewrite Hnil in Hin. destruct Hin.
Qed.

(** X20: when the parent hands in a different value while the instance is
    mounted, the search text is kept for the moment and is empty once 100ms
    have passed; handing in the value the widget already has changes
    nothing, and schedules nothing. *)
Theorem X20_value_change_resets_search :
  forall w v,
    (isMountedRef w = true ->
     JS.opt_string_eqb v (props_value w) = false ->
     props_value (step w (PropsValue v)) = v /\
     searchValue (step w (PropsValue v)) = searchValue w /\
     searchValue (run w [PropsValue v; TimePasses 100]) = "") /\
    step w (PropsValue (props_value w)) = w.
Proof.
  intros w v. split.
  - intros Hm Hne. unfold run. cbn [fold_left]. unfold step.
    split; [| split].
    + unfold receiveValue. rewrite Hne. reflexivity.
    + apply receiveValue_frame.
    + now apply value_change_then_wait_resets.
  - unfold step, receiveValue. now rewrite opt_string_eqb_refl.
Qed.

Lemma runTimerCallbacks_search (l : list Timer) (w : Widget) :
  searchValue
    (fold_left (fun acc tm => runTimerCallback (timer_callback tm) acc) l w) =
    searchValue w \/
  searchValue
    (fold_left (fun acc tm => runTimerCallback (timer_callback tm) acc) l w) = "".
Proof.
  revert w. induction l as [|tm l IH]; intros w; simpl; [now left |].
  destruct (IH (runTimerCallback (timer_callback tm) w)) as [H | H];
    [| now right].
  rewrite H. unfold runTimerCallback.
  destruct (timer_callback tm); [destruct (isMountedRef w) |];
    [now right | now left | now right].
Qed.

Lemma advance_nothing_due (dt : nat) (w : Widget) :
  (forall t, In t (timers w) -> (now w + dt < timer_due t)%nat) ->
  advance dt w = set_clock (now w + dt)%nat (timers w) w.
Proof.
  intros H. unfold advance.
  rewrite (filter_none (fun tm => (timer_due tm <=? now w + dt)%nat)).
  - simpl. f_equal.
    induction (timers w) as [|t l IH]; simpl; [reflexivity |].
    assert (Ht : (timer_due t <=? now w + dt)%nat = false).
    { apply Nat.leb_gt. apply H. now left. }
    rewrite Ht. simpl. f_equal. apply IH. intros t' Ht'. apply H. now right.
  - intros t Ht. apply Nat.leb_gt. now apply H.
Qed.

(** X21: the search text changes only in three ways: typing stores the typed
    text, the clear icon empties it, and time passing empties it or leaves
    it; time passing leaves it when no pending timer has come due.  No other
    event touches it. *)
Theorem X21_search_text_changes :
  forall w e,
    (searchValue (step w e) = searchValue w \/
     (exists text, e = InputValueChange text /\ searchValue (step w e) = text) \/
     (searchValue (step w e) = "" /\
      (e = ClearSearchClick \/ exists dt, e = TimePasses dt))) /\
    (forall dt, e = TimePasses dt ->
       (forall t, In t (timers w) -> (now w + dt < timer_due t)%nat) ->
       searchValue (step w e) = searchValue w).
Proof.
  intros w e. split.
  - destruct e as [o|text|key| |row|row| |options|v|dt| ]; simpl.
    + left. apply handleOpenChange_frame.
    + right. left. now exists text.
    + left. destruct (handleInputKeyDown_cases key w)
        as [-> | [-> | [[i ->] | [o [_ [_ ->]]]]]]; reflexivity.
    + right. right. split; [reflexivity | now left].
    + left. destruct (nth_error (filteredOptions w) row); reflexivity.
    + left. destruct (nth_error (filteredOptions w) row) as [o|]; [| reflexivity].
      unfold item_onMouseEnter. destruct (negb (is_disabled o)); reflexivity.
    + now left.
    + now left.
    + left. apply receiveValue_frame.
    + unfold advance.
      destruct (runTimerCallbacks_search
                  (filter (fun tm => (timer_due tm <=? now w + dt)%nat) (timers w))
                  (set_clock (now w + dt)%nat
                     (filter (fun tm => negb (timer_due tm <=? now w + dt)%nat)
                        (timers w)) w)) as [H | H].
      * left. exact H.
      * right. right. split; [exact H |]. right. now exists dt.
    + left. apply unmount_frame.
  - intros dt -> H. unfold step. now rewrite advance_nothing_due.
Qed.


(** *** Closing without the popover's notice *)

Lemma handleInputKeyDown_Enter_cases (w : Widget) :
  handleInputKeyDown "Enter" w = (false, w) \/
  handleInputKeyDown "Enter" w = (true, w) \/
  exists o,
    JS.at_index (enabledFilteredOptions w) (highlightedIndex w) = Some o /\
    handleInputKeyDown "Enter" w = (true, handleSelect (value o) w).
Proof.
  unfold handleInputKeyDown.
  destruct (JS.length (enabledFilteredOptions w) =? 0); [now left |].
  simpl. destruct (highlightedIndex w >=? 0); [| now left].
  destruct (JS.at_index (enabledFilteredOptions w) (highlightedIndex w)) as [o|].
  - right. right. now exists o.
  - right. now left.
Qed.

(** X22: selecting with Enter or through a row's [onSelect], and closing
    through the Escape callback, schedule no reset and leave the search text
    and the highlight as they are (the highlight is not put back to -1).
    With no timer pending, the search text then stays for as long as only
    time passes. *)
Theorem X22_select_and_escape_schedule_nothing :
  forall w e,
    e = InputKeyDown "Enter" \/ (exists row, e = ItemSelect row) \/ e = EscapeKey ->
    timers (step w e) = timers w /\
    searchValue (step w e) = searchValue w /\
    highlightedIndex (step w e) = highlightedIndex w /\
    (timers w = [] ->
     forall dts,
       searchValue (run (step w e) (map TimePasses dts)) = searchValue w).
Proof.
  intros w e He.
  assert (H : timers (step w e) = timers w /\
              searchValue (step w e) = searchValue w /\
              highlightedIndex (step w e) = highlightedIndex w).
  { destruct He as [-> | [[row ->] | ->]]; unfold step.
    - destruct (handleInputKeyDown_Enter_cases w) as [-> | [-> | [o [_ ->]]]];
        now repeat split.
    - destruct (nth_error (filteredOptions w) row); now repeat split.
    - now repeat split. }
  destruct H as [Ht [Hs Hh]]. repeat split; try assumption.
  intros Hnil dts.
  destruct (run_time_without_timers dts (step w e)) as [_ E]; [congruence |].
  now rewrite E.
Qed.

(** *** Check mark and trigger *)

Lemma find_unique (l : list SearchableSelectOption) (o : SearchableSelectOption) :
  NoDup (map value l) -> In o l ->
  find (fun e => (value e =? value o)%string) l = Some o.
Proof.
  induction l as [|x l IH]; intros Hnd Hin; [destruct Hin |].
  simpl in Hnd. inversion Hnd as [|y ys Hnot Hnd']; subst. simpl.
  destruct Hin as [-> | Hin].
  - now rewrite String.eqb_refl.
  - destruct (String.eqb_spec (value x) (value o)) as [E | _].
    + exfalso. apply Hnot. rewrite E. now apply in_map.
    + now apply IH.
Qed.

(** X23: an option's check mark is shown exactly when the selected value is
    that option's value; when the options' values are all different, the
    option with the check mark is the one whose label the trigger shows. *)
Theorem X23_check_mark_matches_trigger :
  forall w o,
    (isChecked o w = true <-> props_value w = Some (value o)) /\
    (NoDup (map value (props_options w)) -> In o (props_options w) ->
     isChecked o w = true ->
     selectedOption w = Some o /\
     forall placeholder, triggerLabel placeholder w = label o).
Proof.
  intros w o. unfold isChecked. split.
  - destruct (props_value w) as [v|]; simpl.
    + rewrite String.eqb_eq. split; congruence.
    + split; discriminate.
  - intros Hnd Hin Hc.
    assert (Hs : selectedOption w = Some o).
    { unfold selectedOption. destruct (props_value w) as [v|]; [| discriminate].
      simpl in Hc. apply String.eqb_eq in Hc. subst v.
      simpl. now apply find_unique. }
    split; [exact Hs |]. intros placeholder. unfold triggerLabel. now rewrite Hs.
Qed.

(** *** The parent applies the selection *)

(** X24: when the parent hands in a new non-empty value that belongs to an
    enabled option, and 100ms pass, the search text is empty and the next
    open puts the highlight on a navigable option carrying that value. *)
Theorem X24_reopen_highlights_new_value :
  forall w o,
    isMountedRef w = true ->
    In o (props_options w) -> is_disabled o = false -> value o <> "" ->
    JS.opt_string_eqb (Some (value o)) (props_value w) = false ->
    let w' := run w [PropsValue (Some (value o)); TimePasses 100;
                     PopoverOpenChange true] in
    open w' = true /\
    searchValue w' = "" /\
    exists o',
      JS.at_index (enabledFilteredOptions w') (highlightedIndex w') = Some o' /\
      value o' = value o.
Proof.
  intros w o Hm Hin Hd Hne Hv w'. subst w'. unfold run. cbn [fold_left].
  set (w1 := step w (PropsValue (Some (value o)))).
  set (w2 := step w1 (TimePasses 100)).
  assert (Hs2 : searchValue w2 = "").
  { subst w2 w1. unfold step. now apply value_change_then_wait_resets. }
  assert (Hp1 : props_value w1 = Some (value o)).
  { subst w1. unfold step, receiveValue. now rewrite Hv. }
  assert (Hp2 : props_value w2 = Some (value o)).
  { subst w2. rewrite step_props_value; [exact Hp1 | discriminate]. }
  assert (Ho2 : props_options w2 = props_options w).
  { subst w2 w1. rewrite !step_props_options; [reflexivity | discriminate..]. }
  assert (He2 : In o (enabledFilteredOptions w2)).
  { apply enabledFilteredOptions_In. split; [| exact Hd].
    unfold filteredOptions. rewrite Hs2, Ho2, filterOptions_empty. exact Hin. }
  split; [reflexivity |]. split; [exact Hs2 |].
  change (enabledFilteredOptions (step w2 (PopoverOpenChange true)))
    with (enabledFilteredOptions w2).
  change (highlightedIndex (step w2 (PopoverOpenChange true)))
    with (getDefaultHighlightedIndex w2).
  rewrite getDefaultHighlightedIndex_three_tier.
  unfold three_tier_rule, truthy_selection. rewrite Hp2.
  cbn [JS.truthy_opt]. unfold JS.truthy.
  destruct (String.eqb_spec (value o) ""); [contradiction |]. cbn [negb].
  assert (Hex : existsb (fun e => (value e =? value o)%string)
                  (enabledFilteredOptions w2) = true).
  { apply existsb_exists. exists o. split; [exact He2 | apply String.eqb_refl]. }
  destruct (findIndex_found _ _ Hex) as [_ [o' [Ho' Hv']]].
  destruct (enabledFilteredOptions w2) as [|x l] eqn:E; [destruct He2 |].
  rewrite Hex. exists o'. split; [exact Ho' | now apply String.eqb_eq].
Qed.

End Properties.

(** ** The test scenarios and concrete runs *)

(** Test 1: [value="a"], ArrowDown then Enter reports "b". *)
Example test_ArrowDown_Enter :
  onValueChange_calls
    (run ascii_toLowerCase (mount (Some "a") test_options)
       [InputKeyDown "ArrowDown"; InputKeyDown "Enter"]) = ["b"].
Proof. vm_compute. reflexivity. Qed.

(** Test 2: the disabled "b" is skipped, Enter reports "c". *)
Example test_skips_disabled :
  onValueChange_calls
    (run ascii_toLowerCase (mount (Some "a") test_options_disabled)
       [InputKeyDown "ArrowDown"; InputKeyDown "Enter"]) = ["c"].
Proof. vm_compute. reflexivity. Qed.

(** The clear icon empties the search text and leaves the highlight where it
    was. *)
Example clear_search_keeps_highlight :
  let w := run ascii_toLowerCase (mount None test_options)
             [PopoverOpenChange true; InputValueChange "a";
              InputKeyDown "ArrowDown"] in
  highlightedIndex w = 1 /\
  searchValue (step ascii_toLowerCase w ClearSearchClick) = "" /\
  highlightedIndex (step ascii_toLowerCase w ClearSearchClick) = 1.
Proof. vm_compute. repeat split. Qed.

(** ** Where the stated rules and the component part ways *)

(** C1, as stated, fails: the selected value is the empty string and the
    second option carries it:
    the rule as stated gives index 1, the component opens on index 0. *)
Lemma C1_counterexample :
  let w := mount (Some "") [optA; optNone] in
  highlightedIndex (handleOpenChange ascii_toLowerCase true w) = 0 /\
  three_tier_rule (enabledFilteredOptions ascii_toLowerCase w) (props_value w) = 1 /\
  highlightedIndex (handleOpenChange ascii_toLowerCase true w) <>
    three_tier_rule (enabledFilteredOptions ascii_toLowerCase w) (props_value w).
Proof. vm_compute. repeat split. discriminate. Qed.

(** C2, as stated, fails: options arrive while the popover is open on an
    empty list, so the highlight
    is -1 with three navigable options.  ArrowDown moves to 1 and ArrowUp to
    2, where the stated formulas give 0. *)
Lemma C2_counterexample :
  let w := run ascii_toLowerCase (mount None [])
             [PopoverOpenChange true; PropsOptions test_options] in
  let n := JS.length (enabledFilteredOptions ascii_toLowerCase w) in
  let current := highlightedIndex w in
  open w = true /\ n = 3 /\ current = -1 /\
  highlightedIndex (step ascii_toLowerCase w (InputKeyDown "ArrowDown")) = 1 /\
  (if current =? -1 then 0 else current + 1) mod n = 0 /\
  highlightedIndex (step ascii_toLowerCase w (InputKeyDown "ArrowUp")) = 2 /\
  (if current =? -1 then 0 else current - 1 + n) mod n = 0.
Proof. vm_compute. repeat split. Qed.

(** C3, as stated, fails: a search text that matches nothing leaves the
    highlight at 0 with no
    navigable option: Enter then neither closes nor calls back. *)
Lemma C3_counterexample :
  let w := run ascii_toLowerCase (mount None test_options)
             [PopoverOpenChange true; InputValueChange "zzz"] in
  0 <= highlightedIndex w /\
  open w = true /\
  open (step ascii_toLowerCase w (InputKeyDown "Enter")) = true /\
  onValueChange_calls (step ascii_toLowerCase w (InputKeyDown "Enter")) = [].
Proof. vm_compute. repeat split. discriminate. Qed.

(** C4, as stated, fails: the same state is reachable and has its highlight
    outside [-1, N-1]. *)
Lemma C4_counterexample :
  let w := run ascii_toLowerCase (mount None test_options)
             [PopoverOpenChange true; InputValueChange "zzz"] in
  reachable ascii_toLowerCase w /\
  open w = true /\
  highlightedIndex w = 0 /\
  JS.length (enabledFilteredOptions ascii_toLowerCase w) = 0 /\
  ~ (-1 <= highlightedIndex w <=
     JS.length (enabledFilteredOptions ascii_toLowerCase w) - 1).
Proof.
  split.
  - exists None, test_options,
      [PopoverOpenChange true; InputValueChange "zzz"]. reflexivity.
  - vm_compute. repeat split. intros [_ H]. apply H. reflexivity.
Qed.

(** C7, as stated, fails: the parent hands in another value while the
    popover is open with "a" typed and the second match highlighted; 100ms
    later the value reset empties the search text, the popover still open,
    and the highlight stays at 1. *)
Lemma C7_counterexample :
  let w := run ascii_toLowerCase (mount None test_options)
             [TimePasses 100; PopoverOpenChange true; InputValueChange "a";
              InputKeyDown "ArrowDown"; PropsValue (Some "b")] in
  open w = true /\ searchValue w = "a" /\ highlightedIndex w = 1 /\
  open (step ascii_toLowerCase w (TimePasses 100)) = true /\
  searchValue (step ascii_toLowerCase w (TimePasses 100)) = "" /\
  searchValue (step ascii_toLowerCase w (TimePasses 100)) <> searchValue w /\
  highlightedIndex (step ascii_toLowerCase w (TimePasses 100)) = 1 /\
  highlightedIndex (step ascii_toLowerCase w (TimePasses 100)) <> 0.
Proof. vm_compute. repeat split; discriminate. Qed.

(** C8, as stated, fails: the [onSelect] handler of the disabled row "b",
    run without the toolkit
    holding it back, closes the widget and reports "b". *)
Lemma C8_counterexample :
  let w := run ascii_toLowerCase (mount (Some "a") test_options_disabled)
             [PopoverOpenChange true] in
  nth_error (filteredOptions ascii_toLowerCase w) 1 = Some optB_disabled /\
  is_disabled optB_disabled = true /\
  open w = true /\
  open (step ascii_toLowerCase w (ItemSelect 1)) = false /\
  onValueChange_calls (step ascii_toLowerCase w (ItemSelect 1)) = ["b"].
Proof. vm_compute. repeat split. Qed.

(** C9, as stated, fails: close at 200ms, reopen at 250ms and type "be";
    the reset scheduled by the
    close is still pending and empties the search text at 300ms, while the
    popover is open. *)
Lemma C9_counterexample :
  let w := run ascii_toLowerCase (mount None test_options)
             [TimePasses 200; PopoverOpenChange true; InputValueChange "al";
              PopoverOpenChange false; TimePasses 50;
              PopoverOpenChange true; InputValueChange "be"] in
  now w = 250%nat /\ open w = true /\ searchValue w = "be" /\
  filter is_close_reset (timers w) = [mkTimer 2 300 CloseResetCallback] /\
  open (step ascii_toLowerCase w (TimePasses 50)) = true /\
  searchValue (step ascii_toLowerCase w (TimePasses 50)) = "".
Proof. vm_compute. repeat split. Qed.

(** ** The theorems at concrete inputs *)

(** C2 at a state highlighting the last of three options. *)
Lemma C2_arrow_keys_witness :
  let w := run ascii_toLowerCase (mount (Some "c") test_options)
             [PopoverOpenChange true] in
  0 < JS.length (enabledFilteredOptions ascii_toLowerCase w) /\
  -1 <= highlightedIndex w /\
  highlightedIndex w = 3 - 1 /\
  highlightedIndex (step ascii_toLowerCase w (InputKeyDown "ArrowDown")) = 0.
Proof.
  intros w.
  assert (Hn : 0 < JS.length (enabledFilteredOptions ascii_toLowerCase w))
    by (vm_compute; reflexivity).
  assert (Hh : -1 <= highlightedIndex w) by (vm_compute; discriminate).
  assert (Hc : highlightedIndex w = 3 - 1) by (vm_compute; reflexivity).
  split; [exact Hn |]. split; [exact Hh |]. split; [exact Hc |].
  destruct (C2_arrow_keys ascii_toLowerCase w) as [H _].
  destruct (H Hn Hh) as [_ [_ [Hlast _]]].
  apply Hlast. exact Hc.
Defined.

(** C3 at the state of the first test before Enter. *)
Lemma C3_enter_confirms_in_range_witness :
  let w := run ascii_toLowerCase (mount (Some "a") test_options)
             [PopoverOpenChange true; InputKeyDown "ArrowDown"] in
  0 <= highlightedIndex w < JS.length (enabledFilteredOptions ascii_toLowerCase w) /\
  exists o,
    JS.at_index (enabledFilteredOptions ascii_toLowerCase w) (highlightedIndex w)
      = Some o /\
    step ascii_toLowerCase w (InputKeyDown "Enter") =
      onValueChange (value o) (setOpen false w) /\
    open (step ascii_toLowerCase w (InputKeyDown "Enter")) = false /\
    onValueChange_calls (step ascii_toLowerCase w (InputKeyDown "Enter")) =
      (onValueChange_calls w ++ [value o])%list.
Proof.
  intros w.
  assert (Hr : 0 <= highlightedIndex w <
               JS.length (enabledFilteredOptions ascii_toLowerCase w))
    by (vm_compute; split; [discriminate | reflexivity]).
  split; [exact Hr |].
  destruct (C3_enter_confirms_in_range ascii_toLowerCase w) as [H _].
  exact (H Hr).
Defined.

(** C4 at a reachable state with a disabled option. *)
Lemma C4_highlight_bounds_witness :
  let w := run ascii_toLowerCase (mount (Some "c") test_options_disabled)
             [PopoverOpenChange true; InputKeyDown "ArrowUp"] in
  reachable ascii_toLowerCase w /\
  -1 <= highlightedIndex w /\
  exists o,
    JS.at_index (enabledFilteredOptions ascii_toLowerCase w) (highlightedIndex w)
      = Some o /\
    In o (filteredOptions ascii_toLowerCase w) /\ is_disabled o = false.
Proof.
  intros w.
  assert (Hr : reachable ascii_toLowerCase w).
  { exists (Some "c"), test_options_disabled,
      [PopoverOpenChange true; InputKeyDown "ArrowUp"]. reflexivity. }
  split; [exact Hr |].
  destruct (C4_highlight_bounds ascii_toLowerCase w Hr)
    as [Hl [_ [_ [_ [_ [Hin _]]]]]].
  split; [exact Hl |]. apply Hin.
  vm_compute. split; discriminate.
Defined.

(** C5 with the ASCII lower-casing and an upper-case search text. *)
Lemma C5_filteredOptions_spec_witness :
  let w := run ascii_toLowerCase (mount None test_options)
             [PopoverOpenChange true; InputValueChange "AM"] in
  ascii_toLowerCase "" = "" /\
  In optC (filteredOptions ascii_toLowerCase w) /\
  exists pre post,
    ascii_toLowerCase (label optC) =
    (pre ++ ascii_toLowerCase (searchValue w) ++ post)%string.
Proof.
  intros w.
  assert (He : ascii_toLowerCase "" = "") by reflexivity.
  assert (Hin : In optC (filteredOptions ascii_toLowerCase w))
    by (vm_compute; left; reflexivity).
  split; [exact He |]. split; [exact Hin |].
  destruct (C5_filteredOptions_spec ascii_toLowerCase He) as [_ [_ [_ [_ [_ H]]]]].
  exact (H w optC Hin).
Defined.

(** C6 on the options of the second test. *)
Lemma C6_enabledFilteredOptions_spec_witness :
  let w := mount (Some "a") test_options_disabled in
  enabledFilteredOptions ascii_toLowerCase w = ([] ++ optA :: [] ++ [optC])%list /\
  exists a' b' c',
    filteredOptions ascii_toLowerCase w = (a' ++ optA :: b' ++ optC :: c')%list.
Proof.
  intros w.
  assert (He : enabledFilteredOptions ascii_toLowerCase w =
               ([] ++ optA :: [] ++ [optC])%list) by reflexivity.
  split; [exact He |].
  destruct (C6_enabledFilteredOptions_spec ascii_toLowerCase w)
    as [_ [_ [_ [_ H]]]].
  exact (H [] [] optA optC He).
Defined.

(** C8 on the enabled third row. *)
Lemma C8_row_click_witness :
  let w := run ascii_toLowerCase (mount (Some "a") test_options_disabled)
             [PopoverOpenChange true] in
  nth_error (filteredOptions ascii_toLowerCase w) 2 = Some optC /\
  step ascii_toLowerCase w (ItemSelect 2) =
    onValueChange (value optC) (setOpen false w) /\
  open (step ascii_toLowerCase w (ItemSelect 2)) = false /\
  onValueChange_calls (step ascii_toLowerCase w (ItemSelect 2)) =
    (onValueChange_calls w ++ [value optC])%list /\
  item_disabled optC = is_disabled optC /\
  (is_disabled optC = false ->
     CommandItem_click optC w = step ascii_toLowerCase w (ItemSelect 2)) /\
  (is_disabled optC = true -> CommandItem_click optC w = w).
Proof.
  intros w.
  assert (Hrow : nth_error (filteredOptions ascii_toLowerCase w) 2 = Some optC)
    by reflexivity.
  split; [exact Hrow |].
  exact (C8_row_click ascii_toLowerCase w 2%nat optC Hrow).
Defined.

(** C9 at a state with a close reset pending. *)
Lemma C9_reset_timers_witness :
  let w := run ascii_toLowerCase (mount (Some "a") test_options)
             [PopoverOpenChange true; InputValueChange "al";
              PopoverOpenChange false; TimePasses 30] in
  reachable ascii_toLowerCase w /\
  timers w <> [] /\
  timers (step ascii_toLowerCase w Unmount) = [] /\
  filter is_close_reset (timers (step ascii_toLowerCase w (PopoverOpenChange false))) =
    [mkTimer (nextTimerId w) (now w + 100) CloseResetCallback].
Proof.
  intros w.
  assert (Hr : reachable ascii_toLowerCase w).
  { exists (Some "a"), test_options,
      [PopoverOpenChange true; InputValueChange "al";
       PopoverOpenChange false; TimePasses 30]. reflexivity. }
  split; [exact Hr |]. split; [vm_compute; discriminate |].
  destruct (C9_reset_timers ascii_toLowerCase w Hr) as [[Hu _] [[Hc _] _]].
  split; [exact Hu | exact Hc].
Defined.

(** C10 at a state whose options shrank while the popover was open. *)
Lemma C10_enter_stale_index_guarded_witness :
  let w := run ascii_toLowerCase (mount (Some "c") test_options)
             [PopoverOpenChange true; PropsOptions [optA]] in
  0 < JS.length (enabledFilteredOptions ascii_toLowerCase w) /\
  JS.length (enabledFilteredOptions ascii_toLowerCase w) <= highlightedIndex w /\
  JS.at_index (enabledFilteredOptions ascii_toLowerCase w) (highlightedIndex w) = None /\
  step ascii_toLowerCase w (InputKeyDown "Enter") = w /\
  onValueChange_calls (step ascii_toLowerCase w (InputKeyDown "Enter")) =
    onValueChange_calls w /\
  open (step ascii_toLowerCase w (InputKeyDown "Enter")) = open w.
Proof.
  intros w.
  assert (Hn : 0 < JS.length (enabledFilteredOptions ascii_toLowerCase w))
    by (vm_compute; reflexivity).
  assert (Hh : JS.length (enabledFilteredOptions ascii_toLowerCase w)
               <= highlightedIndex w) by (vm_compute; discriminate).
  split; [exact Hn |]. split; [exact Hh |].
  exact (C10_enter_stale_index_guarded ascii_toLowerCase w Hn Hh).
Defined.

(** ** The further properties at concrete inputs *)

(** X1 with an empty-string value carried by the second option. *)
Lemma X1_trigger_label_witness :
  let w := mount (Some "") [optA; optNone] in
  props_value w = Some "" /\
  props_options w = ([optA] ++ optNone :: [])%list /\
  triggerLabel "Select" w = label optNone.
Proof.
  intros w.
  assert (Hv : props_value w = Some "") by reflexivity.
  assert (Ho : props_options w = ([optA] ++ optNone :: [])%list) by reflexivity.
  split; [exact Hv |]. split; [exact Ho |].
  destruct (X1_trigger_label "Select" w) as [_ [_ H]].
  apply (H "" [optA] optNone [] Hv Ho eq_refl).
  intros x [<- | []]. discriminate.
Defined.

(** X2 at Enter pressed in the state of the first test. *)
Lemma X2_props_only_change_from_parent_witness :
  let w := run ascii_toLowerCase (mount (Some "a") test_options)
             [InputKeyDown "ArrowDown"] in
  (forall v, InputKeyDown "Enter" <> PropsValue v) /\
  props_value (step ascii_toLowerCase w (InputKeyDown "Enter")) = props_value w.
Proof.
  intros w.
  assert (He : forall v, InputKeyDown "Enter" <> PropsValue v) by discriminate.
  split; [exact He |].
  destruct (X2_props_only_change_from_parent ascii_toLowerCase w
              (InputKeyDown "Enter")) as [H _].
  exact (H He).
Defined.

(** X5 on the run of the first test. *)
Lemma X5_reported_values_are_option_values_witness :
  let es := [InputKeyDown "ArrowDown"; InputKeyDown "Enter"] in
  (forall e, In e es -> forall options', e <> PropsOptions options') /\
  In "b" (onValueChange_calls
            (run ascii_toLowerCase (mount (Some "a") test_options) es)) /\
  exists o, In o test_options /\ value o = "b".
Proof.
  intros es.
  assert (Hes : forall e, In e es -> forall options', e <> PropsOptions options').
  { intros e [<- | [<- | []]] options'; discriminate. }
  assert (Hin : In "b" (onValueChange_calls
                          (run ascii_toLowerCase (mount (Some "a") test_options) es)))
    by (vm_compute; left; reflexivity).
  split; [exact Hes |]. split; [exact Hin |].
  exact (X5_reported_values_are_option_values ascii_toLowerCase (Some "a")
           test_options es Hes "b" Hin).
Defined.

(** X6 at a key the handler ignores. *)
Lemma X6_preventDefault_witness :
  let w := run ascii_toLowerCase (mount (Some "a") test_options)
             [PopoverOpenChange true] in
  fst (handleInputKeyDown ascii_toLowerCase "Tab" w) = false /\
  snd (handleInputKeyDown ascii_toLowerCase "Tab" w) = w.
Proof.
  intros w.
  assert (Hf : fst (handleInputKeyDown ascii_toLowerCase "Tab" w) = false)
    by reflexivity.
  split; [exact Hf |].
  destruct (X6_preventDefault ascii_toLowerCase "Tab" w) as [_ H].
  exact (H Hf).
Defined.

(** X7 at the Escape callback on an open widget. *)
Lemma X7_open_state_transitions_witness :
  let w := run ascii_toLowerCase (mount (Some "a") test_options)
             [PopoverOpenChange true] in
  open w = true /\
  open (step ascii_toLowerCase w EscapeKey) = false /\
  (EscapeKey = PopoverOpenChange false \/ EscapeKey = EscapeKey \/
   EscapeKey = InputKeyDown "Enter" \/ exists row, EscapeKey = ItemSelect row).
Proof.
  intros w.
  assert (H1 : open w = true) by reflexivity.
  assert (H2 : open (step ascii_toLowerCase w EscapeKey) = false) by reflexivity.
  split; [exact H1 |]. split; [exact H2 |].
  destruct (X7_open_state_transitions ascii_toLowerCase w EscapeKey) as [_ H].
  exact (H H1 H2).
Defined.

(** X8 and X9 on the three options of the first test, highlight on "a". *)
Lemma X8_arrows_are_inverse_witness :
  let w := run ascii_toLowerCase (mount (Some "a") test_options)
             [PopoverOpenChange true] in
  0 <= highlightedIndex w < JS.length (enabledFilteredOptions ascii_toLowerCase w) /\
  run ascii_toLowerCase w [InputKeyDown "ArrowDown"; InputKeyDown "ArrowUp"] = w /\
  run ascii_toLowerCase w [InputKeyDown "ArrowUp"; InputKeyDown "ArrowDown"] = w.
Proof.
  intros w.
  assert (Hr : 0 <= highlightedIndex w <
               JS.length (enabledFilteredOptions ascii_toLowerCase w))
    by (vm_compute; split; [discriminate | reflexivity]).
  split; [exact Hr |].
  exact (X8_arrows_are_inverse ascii_toLowerCase w Hr).
Defined.

Lemma X9_arrow_cycle_witness :
  let w := run ascii_toLowerCase (mount (Some "a") test_options)
             [PopoverOpenChange true] in
  0 <= highlightedIndex w < JS.length (enabledFilteredOptions ascii_toLowerCase w) /\
  run ascii_toLowerCase w (repeat (InputKeyDown "ArrowDown") 3) = w.
Proof.
  intros w.
  assert (Hr : 0 <= highlightedIndex w <
               JS.length (enabledFilteredOptions ascii_toLowerCase w))
    by (vm_compute; split; [discriminate | reflexivity]).
  split; [exact Hr |].
  destruct (X9_arrow_cycle ascii_toLowerCase w Hr) as [_ [H _]].
  exact H.
Defined.

(** X10 on the enabled third row of the second test's options. *)
Lemma X10_hover_then_enter_witness :
  let w := run ascii_toLowerCase (mount (Some "a") test_options_disabled)
             [PopoverOpenChange true] in
  nth_error (filteredOptions ascii_toLowerCase w) 2 = Some optC /\
  is_disabled optC = false /\
  onValueChange_calls
    (run ascii_toLowerCase w [ItemMouseEnter 2; InputKeyDown "Enter"]) =
    (onValueChange_calls w ++ [value optC])%list /\
  open (run ascii_toLowerCase w [ItemMouseEnter 2; InputKeyDown "Enter"]) = false.
Proof.
  intros w.
  assert (Hrow : nth_error (filteredOptions ascii_toLowerCase w) 2 = Some optC)
    by reflexivity.
  assert (Hd : is_disabled optC = false) by reflexivity.
  split; [exact Hrow |]. split; [exact Hd |].
  exact (X10_hover_then_enter ascii_toLowerCase w 2%nat optC Hrow Hd).
Defined.

(** X11 with a search text that only "Beta" matches. *)
Lemma X11_search_then_enter_witness :
  let w := run ascii_toLowerCase (mount (Some "a") test_options)
             [PopoverOpenChange true] in
  enabledFilteredOptions ascii_toLowerCase
    (step ascii_toLowerCase w (InputValueChange "ET")) = [optB] /\
  onValueChange_calls
    (run ascii_toLowerCase w [InputValueChange "ET"; InputKeyDown "Enter"]) =
    (onValueChange_calls w ++ [value optB])%list /\
  open (run ascii_toLowerCase w [InputValueChange "ET"; InputKeyDown "Enter"]) = false.
Proof.
  intros w.
  assert (He : enabledFilteredOptions ascii_toLowerCase
                 (step ascii_toLowerCase w (InputValueChange "ET")) = [optB])
    by reflexivity.
  split; [exact He |].
  destruct (X11_search_then_enter ascii_toLowerCase w "ET") as [_ [H _]].
  exact (H optB [] He).
Defined.

(** X12 with "b" selected. *)
Lemma X12_open_then_enter_witness :
  let w := mount (Some "b") test_options in
  props_value w = Some "b" /\ "b" <> "" /\
  In optB (enabledFilteredOptions ascii_toLowerCase w) /\
  onValueChange_calls
    (run ascii_toLowerCase w [PopoverOpenChange true; InputKeyDown "Enter"]) =
    (onValueChange_calls w ++ ["b"])%list /\
  open (run ascii_toLowerCase w [PopoverOpenChange true; InputKeyDown "Enter"]) = false.
Proof.
  intros w.
  assert (Hv : props_value w = Some "b") by reflexivity.
  assert (Hne : "b" <> "") by discriminate.
  assert (Hin : In optB (enabledFilteredOptions ascii_toLowerCase w))
    by (vm_compute; right; left; reflexivity).
  split; [exact Hv |]. split; [exact Hne |]. split; [exact Hin |].
  destruct (X12_open_then_enter ascii_toLowerCase w) as [H _].
  exact (H "b" optB Hv Hne Hin eq_refl).
Defined.

(** X13 in the freshly mounted state of the second test. *)
Lemma X13_arrow_down_then_enter_witness :
  let w := mount (Some "a") test_options_disabled in
  0 < JS.length (enabledFilteredOptions ascii_toLowerCase w) /\
  -1 <= highlightedIndex w /\
  exists o,
    JS.at_index (enabledFilteredOptions ascii_toLowerCase w)
      (((if highlightedIndex w =? -1 then 0 else highlightedIndex w) + 1)
       mod JS.length (enabledFilteredOptions ascii_toLowerCase w)) = Some o /\
    onValueChange_calls
      (run ascii_toLowerCase w [InputKeyDown "ArrowDown"; InputKeyDown "Enter"]) =
      (onValueChange_calls w ++ [value o])%list /\
    open (run ascii_toLowerCase w [InputKeyDown "ArrowDown"; InputKeyDown "Enter"])
      = false.
Proof.
  intros w.
  assert (Hn : 0 < JS.length (enabledFilteredOptions ascii_toLowerCase w))
    by (vm_compute; reflexivity).
  assert (Hh : -1 <= highlightedIndex w) by (vm_compute; discriminate).
  split; [exact Hn |]. split; [exact Hh |].
  exact (X13_arrow_down_then_enter ascii_toLowerCase w Hn Hh).
Defined.

(** X14 with "Gamma" filtered and highlighted. *)
Lemma X14_clear_search_witness :
  let w := run ascii_toLowerCase (mount None test_options)
             [PopoverOpenChange true; InputValueChange "ga"] in
  0 <= highlightedIndex w < JS.length (enabledFilteredOptions ascii_toLowerCase w) /\
  0 <= highlightedIndex (step ascii_toLowerCase w ClearSearchClick) <
    JS.length (enabledFilteredOptions ascii_toLowerCase
                 (step ascii_toLowerCase w ClearSearchClick)).
Proof.
  intros w.
  assert (Hr : 0 <= highlightedIndex w <
               JS.length (enabledFilteredOptions ascii_toLowerCase w))
    by (vm_compute; split; [discriminate | reflexivity]).
  split; [exact Hr |].
  destruct (X14_clear_search ascii_toLowerCase w)
    as [_ [_ [_ [_ [_ [_ [_ [_ [_ H]]]]]]]]].
  exact (H Hr).
Defined.

(** X15 with "a" extended to "AM". *)
Lemma X15_longer_search_narrows_witness :
  "AM" <> "" /\
  JS.includes (ascii_toLowerCase "AM") (ascii_toLowerCase "a") = true /\
  Subsequence (filterOptions ascii_toLowerCase test_options "AM")
    (filterOptions ascii_toLowerCase test_options "a").
Proof.
  assert (Hne : "AM" <> "") by discriminate.
  assert (Hi : JS.includes (ascii_toLowerCase "AM") (ascii_toLowerCase "a") = true)
    by reflexivity.
  split; [exact Hne |]. split; [exact Hi |].
  exact (proj1 (X15_longer_search_narrows ascii_toLowerCase test_options
                  "a" "AM" Hne Hi)).
Defined.

(** X17 with a single disabled option. *)
Lemma X17_all_disabled_is_inert_witness :
  let w := mount None [optB_disabled] in
  (forall o, In o (props_options w) -> is_disabled o = true) /\
  enabledFilteredOptions ascii_toLowerCase w = [] /\
  handleInputKeyDown ascii_toLowerCase "Enter" w = (false, w).
Proof.
  intros w.
  assert (Hall : forall o, In o (props_options w) -> is_disabled o = true).
  { intros o [<- | []]. reflexivity. }
  split; [exact Hall |].
  destruct (X17_all_disabled_is_inert ascii_toLowerCase w Hall) as [He [_ [Hk _]]].
  split; [exact He | exact (Hk "Enter")].
Defined.

(** X18 on the options of the first test, highlight on "a". *)
Lemma X18_highlighted_row_witness :
  let w := run ascii_toLowerCase (mount (Some "a") test_options)
             [PopoverOpenChange true] in
  NoDup (map value (props_options w)) /\
  JS.at_index (enabledFilteredOptions ascii_toLowerCase w) (highlightedIndex w)
    = Some optA /\
  isHighlighted ascii_toLowerCase optA w = true.
Proof.
  intros w.
  assert (Hnd : NoDup (map value (props_options w))).
  { repeat constructor; simpl; intuition discriminate. }
  assert (Hat : JS.at_index (enabledFilteredOptions ascii_toLowerCase w)
                  (highlightedIndex w) = Some optA) by reflexivity.
  split; [exact Hnd |]. split; [exact Hat |].
  destruct (X18_highlighted_row ascii_toLowerCase w optA) as [_ [_ H]].
  exact (H Hnd Hat).
Defined.

(** X19 at a state with both resets pending. *)
Lemma X19_pending_timers_witness :
  let w := run ascii_toLowerCase (mount (Some "a") test_options)
             [PopoverOpenChange true; TimePasses 40; PopoverOpenChange false;
              PopoverOpenChange false] in
  reachable ascii_toLowerCase w /\
  List.length (timers w) = 2%nat /\
  (List.length (filter is_close_reset (timers w)) <= 1)%nat /\
  timers (step ascii_toLowerCase w (TimePasses 100)) = [].
Proof.
  intros w.
  assert (Hr : reachable ascii_toLowerCase w).
  { exists (Some "a"), test_options,
      [PopoverOpenChange true; TimePasses 40; PopoverOpenChange false;
       PopoverOpenChange false]. reflexivity. }
  split; [exact Hr |]. split; [reflexivity |].
  destruct (X19_pending_timers ascii_toLowerCase w Hr) as [_ [Hc [_ [_ Ht]]]].
  split; [exact Hc | exact Ht].
Defined.

(** X20 with "a" replaced by "b" while a search text is typed. *)
Lemma X20_value_change_resets_search_witness :
  let w := run ascii_toLowerCase (mount (Some "a") test_options)
             [TimePasses 100; PopoverOpenChange true; InputValueChange "be"] in
  isMountedRef w = true /\
  JS.opt_string_eqb (Some "b") (props_value w) = false /\
  searchValue w = "be" /\
  searchValue (step ascii_toLowerCase w (PropsValue (Some "b"))) = searchValue w /\
  searchValue (run ascii_toLowerCase w [PropsValue (Some "b"); TimePasses 100]) = "".
Proof.
  intros w.
  assert (Hm : isMountedRef w = true) by reflexivity.
  assert (Hne : JS.opt_string_eqb (Some "b") (props_value w) = false) by reflexivity.
  split; [exact Hm |]. split; [exact Hne |]. split; [reflexivity |].
  destruct (X20_value_change_resets_search ascii_toLowerCase w (Some "b"))
    as [H _].
  destruct (H Hm Hne) as [_ [H1 H2]].
  split; [exact H1 | exact H2].
Defined.

(** X21 at 50ms after mounting, before the first reset is due. *)
Lemma X21_search_text_changes_witness :
  let w := run ascii_toLowerCase (mount (Some "a") test_options)
             [InputValueChange "al"] in
  (forall t, In t (timers w) -> (now w + 50 < timer_due t)%nat) /\
  searchValue (step ascii_toLowerCase w (TimePasses 50)) = searchValue w.
Proof.
  intros w.
  assert (Hd : forall t, In t (timers w) -> (now w + 50 < timer_due t)%nat).
  { intros t [<- | []]. simpl. lia. }
  split; [exact Hd |].
  destruct (X21_search_text_changes ascii_toLowerCase w (TimePasses 50)) as [_ H].
  exact (H 50%nat eq_refl Hd).
Defined.

(** X22 at Enter pressed with a search text typed and no timer pending. *)
Lemma X22_select_and_escape_schedule_nothing_witness :
  let w := run ascii_toLowerCase (mount (Some "a") test_options)
             [TimePasses 100; PopoverOpenChange true; InputValueChange "al"] in
  timers w = [] /\
  onValueChange_calls (step ascii_toLowerCase w (InputKeyDown "Enter")) = ["a"] /\
  searchValue
    (run ascii_toLowerCase (step ascii_toLowerCase w (InputKeyDown "Enter"))
       (map TimePasses [100; 1000]%nat)) = searchValue w.
Proof.
  intros w.
  assert (Ht : timers w = []) by reflexivity.
  split; [exact Ht |]. split; [reflexivity |].
  destruct (X22_select_and_escape_schedule_nothing ascii_toLowerCase w
              (InputKeyDown "Enter") (or_introl eq_refl)) as [_ [_ [_ H]]].
  exact (H Ht [100; 1000]%nat).
Defined.

(** X23 with "b" selected. *)
Lemma X23_check_mark_matches_trigger_witness :
  let w := mount (Some "b") test_options in
  NoDup (map value (props_options w)) /\
  In optB (props_options w) /\
  isChecked optB w = true /\
  triggerLabel "Select" w = label optB.
Proof.
  intros w.
  assert (Hnd : NoDup (map value (props_options w))).
  { repeat constructor; simpl; intuition discriminate. }
  assert (Hin : In optB (props_options w)) by (right; left; reflexivity).
  assert (Hc : isChecked optB w = true) by reflexivity.
  split; [exact Hnd |]. split; [exact Hin |]. split; [exact Hc |].
  destruct (X23_check_mark_matches_trigger w optB) as [_ H].
  destruct (H Hnd Hin Hc) as [_ Hl].
  exact (Hl "Select").
Defined.

(** X24 with "c" handed in while "al" is typed. *)
Lemma X24_reopen_highlights_new_value_witness :
  let w := run ascii_toLowerCase (mount (Some "a") test_options)
             [PopoverOpenChange true; InputValueChange "al"] in
  isMountedRef w = true /\
  In optC (props_options w) /\ is_disabled optC = false /\ value optC <> "" /\
  JS.opt_string_eqb (Some (value optC)) (props_value w) = false /\
  exists o',
    JS.at_index
      (enabledFilteredOptions ascii_toLowerCase
         (run ascii_toLowerCase w
            [PropsValue (Some (value optC)); TimePasses 100; PopoverOpenChange true]))
      (highlightedIndex
         (run ascii_toLowerCase w
            [PropsValue (Some (value optC)); TimePasses 100; PopoverOpenChange true]))
      = Some o' /\
    value o' = value optC.
Proof.
  intros w.
  assert (Hm : isMountedRef w = true) by reflexivity.
  assert (Hin : In optC (props_options w)) by (right; right; left; reflexivity).
  assert (Hd : is_disabled optC = false) by reflexivity.
  assert (Hne : value optC <> "") by discriminate.
  assert (Hv : JS.opt_string_eqb (Some (value optC)) (props_value w) = false)
    by reflexivity.
  split; [exact Hm |]. split; [exact Hin |]. split; [exact Hd |].
  split; [exact Hne |]. split; [exact Hv |].
  destruct (X24_reopen_highlights_new_value ascii_toLowerCase w optC
              Hm Hin Hd Hne Hv) as [_ [_ H]].
  exact H.
Defined.
